(** * HttpRunner [make]: generation of pytest files from YAML/JSON testcases

    A shallow embedding of [httprunner/make.py].  Python text is modelled
    by [string] (a sequence of one-byte characters; the case mappings
    [lower] and [title] act on the ASCII letters and leave every other
    character alone), the two module-level sets by [gset string], Python
    dictionaries by insertion-ordered association lists, and every
    function that can raise or touch the outside world by a state and
    exception monad over the file system, the two caches and a trace of
    the effects performed. *)

From Stdlib Require Import Ascii ZArith Lia.
From stdpp Require Import base option list strings gmap pretty.

Local Open Scope char_scope.
Local Open Scope string_scope.
Local Open Scope stdpp_scope.

(** ** Python [str] primitives *)

Module Str.

Definition dquote : ascii := "034".
Definition squote : ascii := "039".
Definition sep : ascii := "/".
Definition dot : ascii := ".".

(** A one-character text. *)
Definition chr (c : ascii) : string := String c "".

Fixpoint length (s : string) : nat :=
  match s with
  | "" => 0
  | String _ r => S (length r)
  end.

(** [s[n:]] for [0 <= n]. *)
Fixpoint drop (n : nat) (s : string) : string :=
  match n, s with
  | 0, _ => s
  | S _, "" => ""
  | S m, String _ r => drop m r
  end.

(** [s[:n]] for [0 <= n]. *)
Fixpoint take (n : nat) (s : string) : string :=
  match n, s with
  | 0, _ => ""
  | S _, "" => ""
  | S m, String c r => String c (take m r)
  end.

(** [s[n:n+1]]: the empty text when [n] is out of range. *)
Definition at1 (n : nat) (s : string) : string := take 1 (drop n s).

(** [c in s] for a one-character [c]. *)
Fixpoint contains (c : ascii) (s : string) : bool :=
  match s with
  | "" => false
  | String a r => if Ascii.eqb a c then true else contains c r
  end.

(** [s.rfind(c)]: [None] stands for Python's [-1]. *)
Fixpoint rfind (c : ascii) (s : string) : option nat :=
  match s with
  | "" => None
  | String a r =>
      match rfind c r with
      | Some i => Some (S i)
      | None => if Ascii.eqb a c then Some 0 else None
      end
  end.

(** [s.rfind(c) + 1], the usual slicing index. *)
Definition rfind1 (c : ascii) (s : string) : nat :=
  match rfind c s with
  | Some i => S i
  | None => 0
  end.

Fixpoint startswith (p s : string) : bool :=
  match p, s with
  | "", _ => true
  | String _ _, "" => false
  | String a p', String b s' => if Ascii.eqb a b then startswith p' s' else false
  end.

Definition endswith (p s : string) : bool :=
  String.eqb (drop (length s - length p) s) p && (length p <=? length s)%nat.

(** [s.rstrip(c)]. *)
Fixpoint rstrip (c : ascii) (s : string) : string :=
  match s with
  | "" => ""
  | String a r =>
      match rstrip c r with
      | "" => if Ascii.eqb a c then "" else chr a
      | r' => String a r'
      end
  end.

(** [s == c * len(s)]. *)
Fixpoint all_eq (c : ascii) (s : string) : bool :=
  match s with
  | "" => true
  | String a r => Ascii.eqb a c && all_eq c r
  end.

Fixpoint map (f : ascii -> ascii) (s : string) : string :=
  match s with
  | "" => ""
  | String a r => String (f a) (map f r)
  end.

(** [s.replace(a, b)] for one-character [a] and [b]. *)
Definition replace (a b : ascii) (s : string) : string :=
  map (fun c => if Ascii.eqb c a then b else c) s.

(** [s.replace(a, '')] for a one-character [a]. *)
Fixpoint remove (a : ascii) (s : string) : string :=
  match s with
  | "" => ""
  | String c r => if Ascii.eqb c a then remove a r else String c (remove a r)
  end.

Definition is_upper (c : ascii) : bool :=
  let n := nat_of_ascii c in (65 <=? n)%nat && (n <=? 90)%nat.
Definition is_lower (c : ascii) : bool :=
  let n := nat_of_ascii c in (97 <=? n)%nat && (n <=? 122)%nat.
Definition is_digit (c : ascii) : bool :=
  let n := nat_of_ascii c in (48 <=? n)%nat && (n <=? 57)%nat.

Definition to_lower (c : ascii) : ascii :=
  if is_upper c then ascii_of_nat (nat_of_ascii c + 32) else c.
Definition to_upper (c : ascii) : ascii :=
  if is_lower c then ascii_of_nat (nat_of_ascii c - 32) else c.

(** [s.lower()]. *)
Definition lower (s : string) : string := map to_lower s.

(** [s.title()]: a cased character is upper-cased when the character
    before it is uncased and lower-cased otherwise. *)
Fixpoint title_from (previous_is_cased : bool) (s : string) : string :=
  match s with
  | "" => ""
  | String c r =>
      if is_lower c then
        String (if previous_is_cased then c else to_upper c) (title_from true r)
      else if is_upper c then
        String (if previous_is_cased then to_lower c else c) (title_from true r)
      else String c (title_from false r)
  end.
Definition title (s : string) : string := title_from false s.

(** [sep.join(l)]. *)
Fixpoint join (sp : string) (l : list string) : string :=
  match l with
  | [] => ""
  | [x] => x
  | x :: r => x +:+ sp +:+ join sp r
  end.

Definition concat (l : list string) : string := foldr String.append "" l.

End Str.

(** ** [os.path] on a POSIX host *)

Module Path.

(** [posixpath.isabs]. *)
Definition isabs (s : string) : bool := Str.startswith "/" s.

(** [posixpath.basename]: [i = p.rfind('/') + 1; return p[i:]]. *)
Definition basename (p : string) : string :=
  Str.drop (Str.rfind1 Str.sep p) p.

(** [head = p[:i]] for [i = p.rfind('/') + 1]: the path up to and
    including its last separator. *)
Definition head (p : string) : string := Str.take (Str.rfind1 Str.sep p) p.

(** [posixpath.dirname]. *)
Definition dirname (p : string) : string :=
  let head := head p in
  if negb (String.eqb head "") && negb (Str.all_eq Str.sep head)
  then Str.rstrip Str.sep head
  else head.

(** [posixpath.join(a, b)]. *)
Definition join (a b : string) : string :=
  if Str.startswith "/" b then b
  else if String.eqb a "" || Str.endswith "/" a then a +:+ b
  else a +:+ "/" +:+ b.

(** The scanning loop of [genericpath._splitext]: is there a character
    other than the dot among the [n] characters from [filenameIndex]? *)
Fixpoint splitext_scan (n filenameIndex : nat) (p : string) : bool :=
  match n with
  | 0 => false
  | S m =>
      if negb (String.eqb (Str.at1 filenameIndex p) ".") then true
      else splitext_scan m (S filenameIndex) p
  end.

(** [posixpath.splitext].  The two [rfind] results are compared as
    Python compares them, with [-1] for a missing character. *)
Definition splitext (p : string) : string * string :=
  match Str.rfind Str.dot p with
  | None => (p, "")
  | Some dotIndex =>
      let filenameIndex := Str.rfind1 Str.sep p in
      if (filenameIndex <=? dotIndex)%nat
         && splitext_scan (dotIndex - filenameIndex) filenameIndex p
      then (Str.take dotIndex p, Str.drop dotIndex p)
      else (p, "")
  end.

End Path.

(** ** Python values *)

(** The documents the loader hands over are JSON or YAML trees.  Mapping
    keys are text and a mapping keeps its insertion order, as a Python
    [dict] does.  Floating-point numbers are left out. *)
#[local] Set Warnings "-register-all".
Inductive value : Type :=
| VNone
| VBool (b : bool)
| VInt (z : Z)
| VStr (s : string)
| VList (l : list value)
| VDict (d : list (string * value)).

Abbreviation dict := (list (string * value)).

Module Py.

(** [repr] of a text: single quotes unless the text has a single quote
    and no double quote; the backslash, the chosen quote and the control
    characters are escaped. *)
Definition hex_digit (n : nat) : ascii :=
  if (n <? 10)%nat then ascii_of_nat (48 + n) else ascii_of_nat (87 + n).

Definition repr_char (quote c : ascii) : string :=
  let n := nat_of_ascii c in
  if Ascii.eqb c quote || Ascii.eqb c "\" then String "\" (Str.chr c)
  else if Ascii.eqb c "009" then "\t"
  else if Ascii.eqb c "010" then "\n"
  else if Ascii.eqb c "013" then "\r"
  else if (n <? 32)%nat || (n =? 127)%nat
       then "\x" +:+ Str.chr (hex_digit (n / 16)) +:+ Str.chr (hex_digit (n mod 16))
  else Str.chr c.

Fixpoint repr_chars (quote : ascii) (s : string) : string :=
  match s with
  | "" => ""
  | String c r => repr_char quote c +:+ repr_chars quote r
  end.

Definition repr_str (s : string) : string :=
  let quote :=
    if Str.contains Str.squote s && negb (Str.contains Str.dquote s)
    then Str.dquote else Str.squote in
  Str.chr quote +:+ repr_chars quote s +:+ Str.chr quote.

(** [repr(v)]. *)
Fixpoint repr (v : value) : string :=
  match v with
  | VNone => "None"
  | VBool true => "True"
  | VBool false => "False"
  | VInt z => pretty z
  | VStr s => repr_str s
  | VList l => "[" +:+ Str.join ", " (List.map repr l) +:+ "]"
  | VDict d =>
      "{" +:+ Str.join ", "
                (List.map (fun kv => repr_str (fst kv) +:+ ": " +:+ repr (snd kv)) d)
          +:+ "}"
  end.

(** [str(v)], which is what an f-string field [{v}] inserts. *)
Definition str (v : value) : string :=
  match v with
  | VStr s => s
  | _ => repr v
  end.

(** [isinstance(v, Text)]. *)
Definition is_text (v : value) : bool :=
  match v with
  | VStr _ => true
  | _ => false
  end.

(** [bool(v)]. *)
Definition truthy (v : value) : bool :=
  match v with
  | VNone => false
  | VBool b => b
  | VInt z => negb (z =? 0)%Z
  | VStr s => negb (String.eqb s "")
  | VList l => match l with [] => false | _ => true end
  | VDict d => match d with [] => false | _ => true end
  end.

(** [d.get(k)] on a dictionary, without the default. *)
Fixpoint lookup (k : string) (d : dict) : option value :=
  match d with
  | [] => None
  | (k', v) :: r => if String.eqb k' k then Some v else lookup k r
  end.

(** [d.get(k)]: [None] when the key is missing. *)
Definition get (k : string) (d : dict) : value :=
  match lookup k d with
  | Some v => v
  | None => VNone
  end.

(** [d.get(k, default)]. *)
Definition get_default (k : string) (default : value) (d : dict) : value :=
  match lookup k d with
  | Some v => v
  | None => default
  end.

(** [k in d]. *)
Definition has (k : string) (d : dict) : bool :=
  match lookup k d with
  | Some _ => true
  | None => false
  end.

(** [d[k] = v]: an existing key keeps its place, a new key goes last. *)
Fixpoint set (k : string) (v : value) (d : dict) : dict :=
  match d with
  | [] => [(k, v)]
  | (k', v') :: r =>
      if String.eqb k' k then (k', v) :: r else (k', v') :: set k v r
  end.

(** [d.setdefault(k, v)], as the dictionary left behind. *)
Definition setdefault (k : string) (v : value) (d : dict) : dict :=
  if has k d then d else set k v d.

(** [d.update(other)] for a dictionary [other]. *)
Definition update (d other : dict) : dict :=
  foldl (fun acc kv => set (fst kv) (snd kv) acc) d other.

(** The one-character texts of a text, as iterating over it yields. *)
Fixpoint chars (s : string) : list value :=
  match s with
  | "" => []
  | String c r => VStr (Str.chr c) :: chars r
  end.

(** [sub in s] for two texts. *)
Fixpoint is_substring (sub s : string) : bool :=
  if Str.startswith sub s then true
  else match s with
       | "" => false
       | String _ r => is_substring sub r
       end.

Definition is_VStr (k : string) (v : value) : bool :=
  match v with
  | VStr s => String.eqb s k
  | _ => false
  end.

End Py.

(** ** Exceptions *)

(** The classes this module raises, catches or lets through.  The
    [httprunner.exceptions] classes are told apart by name, as the
    handlers of this module name them. *)
Inductive exn_class : Type :=
| ParamsError
| TestCaseFormatError
| TestSuiteFormatError
| TestcaseNotFound
| FileNotFound
| FileFormatError
| KeyError
| IndexError
| TypeError
| AttributeError
| RecursionError
| CalledProcessError
| OSError
| OtherError.

Definition exn_class_eqb (a b : exn_class) : bool :=
  match a, b with
  | ParamsError, ParamsError | TestCaseFormatError, TestCaseFormatError
  | TestSuiteFormatError, TestSuiteFormatError
  | TestcaseNotFound, TestcaseNotFound | FileNotFound, FileNotFound
  | FileFormatError, FileFormatError | KeyError, KeyError
  | IndexError, IndexError | TypeError, TypeError
  | AttributeError, AttributeError | RecursionError, RecursionError
  | CalledProcessError, CalledProcessError | OSError, OSError
  | OtherError, OtherError => true
  | _, _ => false
  end.

(** An exception: its class and its message. *)
Record exn : Type := Exn { exn_cls : exn_class; exn_msg : string }.

Inductive result (A : Type) : Type :=
| Ok (a : A)
| Err (e : exn).
Arguments Ok {A} a.
Arguments Err {A} e.

Definition result_bind {A B : Type} (m : result A) (k : A -> result B) : result B :=
  match m with
  | Ok a => k a
  | Err e => Err e
  end.

(** Dynamic accesses that raise on a value of the wrong kind. *)
Module Dyn.

(** [v[k]] for a text key [k]. *)
Definition getitem (k : string) (v : value) : result value :=
  match v with
  | VDict d =>
      match Py.lookup k d with
      | Some x => Ok x
      | None => Err (Exn KeyError (Py.repr_str k))
      end
  | _ => Err (Exn TypeError "subscript")
  end.

(** The receiver of a dictionary method such as [get], [items],
    [setdefault] or [update]. *)
Definition as_dict (v : value) : result dict :=
  match v with
  | VDict d => Ok d
  | _ => Err (Exn AttributeError "dict method")
  end.

(** The target of [v[k] = x] or [v[k]] for a text key. *)
Definition as_subscriptable (v : value) : result dict :=
  match v with
  | VDict d => Ok d
  | _ => Err (Exn TypeError "subscript")
  end.

(** A text handed to a path or text function. *)
Definition as_text (v : value) : result string :=
  match v with
  | VStr s => Ok s
  | _ => Err (Exn TypeError "expected str")
  end.

(** [for x in v]. *)
Definition iter (v : value) : result (list value) :=
  match v with
  | VList l => Ok l
  | VDict d => Ok (List.map (fun kv => VStr (fst kv)) d)
  | VStr s => Ok (Py.chars s)
  | _ => Err (Exn TypeError "not iterable")
  end.

(** [k in v] for a text [k]. *)
Definition contains (k : string) (v : value) : result bool :=
  match v with
  | VStr s => Ok (Py.is_substring k s)
  | VList l => Ok (existsb (Py.is_VStr k) l)
  | VDict d => Ok (Py.has k d)
  | _ => Err (Exn TypeError "not iterable")
  end.

End Dyn.

(** ** Collaborators, state and the monad *)

(** What [load_project_meta] returns: the project directory and the
    table of [debugtalk] functions, which this module only passes on. *)
Record ProjectMeta (F : Type) : Type := { PWD : string; functions : F }.
Arguments PWD {F} _.
Arguments functions {F} _.

(** What [uniform_validator] returns: the check, expect and assert entries. *)
Record Validator : Type :=
  { v_check : value; v_expect : value; v_assert : value }.

(** The code this module calls and does not define: the loader, the
    parser, the compatibility layer, the operating system and the
    [black] executable.  Each may raise. *)
Record Env : Type := {
  FS : Type;
  Functions : Type;
  getcwd : string;
  version : string;
  isdir : FS -> string -> bool;
  isfile : FS -> string -> bool;
  write_file : string -> string -> FS -> result FS;
  makedirs : string -> FS -> result FS;
  load_folder_files : string -> FS -> result (list string);
  load_test_file : string -> FS -> result value;
  load_testcase : dict -> result unit;
  load_testsuite : dict -> result unit;
  load_project_meta : string -> result (ProjectMeta Functions);
  parse_data : value -> dict -> Functions -> result value;
  ensure_testcase_v3 : dict -> result dict;
  ensure_testcase_v3_api : value -> result value;
  uniform_validator : value -> result Validator;
  subprocess_run : list string -> FS -> result unit * FS;
}.

(** The effects a run leaves behind, oldest first. *)
Inductive event : Type :=
| EvLog (level msg : string)
| EvWrite (path content : string)
| EvMakedirs (path : string)
| EvCapture (e : exn)
| EvRun (args : list string).

(** The file system, the two module-level sets and the effects so far. *)
Record State (E : Env) : Type := {
  fs : FS E;
  make_files_cache_set : gset string;
  pytest_files_set : gset string;
  trace : list event;
}.
Arguments fs {E} _.
Arguments make_files_cache_set {E} _.
Arguments pytest_files_set {E} _.
Arguments trace {E} _.

Definition M (E : Env) (A : Type) : Type := State E -> result A * State E.

Definition ret {E : Env} {A : Type} (a : A) : M E A := fun st => (Ok a, st).

Definition bind {E : Env} {A B : Type} (m : M E A) (k : A -> M E B) : M E B :=
  fun st =>
    match m st with
    | (Ok a, st') => k a st'
    | (Err e, st') => (Err e, st')
    end.

Definition raise {E : Env} {A : Type} (e : exn) : M E A := fun st => (Err e, st).

Definition lift {E : Env} {A : Type} (r : result A) : M E A := fun st => (r, st).

(** [try: m  except <classes>: h]. *)
Definition try_except {E : Env} {A : Type}
    (m : M E A) (classes : list exn_class) (h : exn -> M E A) : M E A :=
  fun st =>
    match m st with
    | (Ok a, st') => (Ok a, st')
    | (Err e, st') =>
        if existsb (exn_class_eqb (exn_cls e)) classes then h e st'
        else (Err e, st')
    end.

Global Instance M_ret {E : Env} : MRet (M E) := @ret E.
Global Instance M_bind {E : Env} : MBind (M E) := fun A B k m => bind m k.
Global Instance result_ret : MRet result := @Ok.
Global Instance result_bind_inst : MBind result := fun A B k m => result_bind m k.

Section Effects.
Context {E : Env}.

Definition emit (ev : event) : M E unit :=
  fun st =>
    (Ok tt, {| fs := fs st; make_files_cache_set := make_files_cache_set st;
               pytest_files_set := pytest_files_set st;
               trace := trace st ++ [ev] |}).

Definition logger_info (msg : string) : M E unit := emit (EvLog "INFO" msg).
Definition logger_warning (msg : string) : M E unit := emit (EvLog "WARNING" msg).
Definition logger_error (msg : string) : M E unit := emit (EvLog "ERROR" msg).
Definition capture_exception (e : exn) : M E unit := emit (EvCapture e).

(** Run an operation of the file system. *)
Definition fs_read {A : Type} (f : FS E -> A) : M E A :=
  fun st => (Ok (f (fs st)), st).

Definition fs_load {A : Type} (f : FS E -> result A) : M E A :=
  fun st => (f (fs st), st).

Definition fs_update (ev : event) (f : FS E -> result (FS E)) : M E unit :=
  fun st =>
    match f (fs st) with
    | Ok fs' =>
        (Ok tt, {| fs := fs'; make_files_cache_set := make_files_cache_set st;
                   pytest_files_set := pytest_files_set st;
                   trace := trace st ++ [ev] |})
    | Err e => (Err e, st)
    end.

(** [open(path, 'w')] followed by [f.write(content)]. *)
Definition open_write (path content : string) : M E unit :=
  fs_update (EvWrite path content) (write_file E path content).

(** [os.makedirs(path, exist_ok=True)]. *)
Definition os_makedirs (path : string) : M E unit :=
  fs_update (EvMakedirs path) (makedirs E path).

(** [path in make_files_cache_set]. *)
Definition cache_mem (path : string) : M E bool :=
  fun st => (Ok (bool_decide (path ∈ make_files_cache_set st)), st).

(** [make_files_cache_set.add(path)]. *)
Definition cache_add (path : string) : M E unit :=
  fun st =>
    (Ok tt, {| fs := fs st;
               make_files_cache_set := {[ path ]} ∪ make_files_cache_set st;
               pytest_files_set := pytest_files_set st;
               trace := trace st |}).

(** [pytest_files_set.add(path)]. *)
Definition pytest_add (path : string) : M E unit :=
  fun st =>
    (Ok tt, {| fs := fs st; make_files_cache_set := make_files_cache_set st;
               pytest_files_set := {[ path ]} ∪ pytest_files_set st;
               trace := trace st |}).

(** [pytest_files_set.update(make_files_cache_set)]. *)
Definition pytest_update_from_cache : M E unit :=
  fun st =>
    (Ok tt, {| fs := fs st; make_files_cache_set := make_files_cache_set st;
               pytest_files_set := pytest_files_set st ∪ make_files_cache_set st;
               trace := trace st |}).

(** [list(pytest_files_set)]. *)
Definition pytest_list : M E (list string) :=
  fun st => (Ok (elements (pytest_files_set st)), st).

(** A [for] loop whose body returns nothing. *)
Fixpoint for_each {A : Type} (body : A -> M E unit) (l : list A) : M E unit :=
  match l with
  | [] => ret tt
  | x :: r => body x ;; for_each body r
  end.

End Effects.

(** A list comprehension over a function that may raise. *)
Fixpoint map_result {A B : Type} (f : A -> result B) (l : list A) : result (list B) :=
  match l with
  | [] => Ok []
  | x :: r =>
      y ← f x; ys ← map_result f r; Ok (y :: ys)
  end.

(** ** [httprunner/make.py] *)

Definition dq : string := Str.chr Str.dquote.
Definition sq : string := Str.chr Str.squote.
Definition nl : string := Str.chr "010".

(** [string.digits]. *)
Definition string_digits : string := "0123456789".

(** The template [__TEMPLATE__] rendered by jinja2 with its default
    settings: block tags keep the line breaks around them and the single
    line break that ends the template is dropped. *)
Definition render_template
    (version testcase_path class_name : string) (imports_list : list string)
    (config_chain_style : string) (teststeps_chain_style : list string) : string :=
  "# NOTICE: Generated By HttpRunner v" +:+ version +:+ nl +:+
  "# FROM: " +:+ testcase_path +:+ nl +:+
  (match imports_list with
   | [] => ""
   | _ => nl +:+ "import os" +:+ nl +:+ "import sys" +:+ nl +:+ nl +:+
          "sys.path.insert(0, os.getcwd())" +:+ nl
   end) +:+ nl +:+
  "from httprunner import HttpRunner, Config, Step, RunRequest, RunTestCase" +:+ nl +:+
  Str.concat (List.map (fun import_str => nl +:+ import_str +:+ nl) imports_list) +:+
  nl +:+ nl +:+
  "class " +:+ class_name +:+ "(HttpRunner):" +:+ nl +:+
  "    config = " +:+ config_chain_style +:+ nl +:+ nl +:+
  "    teststeps = [" +:+ nl +:+ "        " +:+
  Str.concat (List.map (fun step_chain_style =>
                nl +:+ "            " +:+ step_chain_style +:+ "," +:+ nl +:+ "        ")
              teststeps_chain_style) +:+
  nl +:+ "    ]" +:+ nl +:+ nl +:+
  "if __name__ == " +:+ dq +:+ "__main__" +:+ dq +:+ ":" +:+ nl +:+
  "    " +:+ class_name +:+ "().test_start()" +:+ nl.

(** [__ensure_file_name]: [filename[0]] raises [IndexError] on an empty
    base name. *)
Definition __ensure_file_name (path : string) : result string :=
  let filename := Path.basename path in
  match filename with
  | "" => Err (Exn IndexError "string index out of range")
  | String c _ =>
      if Str.contains c string_digits
      then Ok (Path.join (Path.dirname path) ("T" +:+ filename))
      else Ok path
  end.

(** The source suffixes [convert_testcase_path] accepts. *)
Definition source_suffixes : list string := [".json"; ".yml"; ".yaml"; ".har"].

Definition suffix_allowed (file_suffix : string) : bool :=
  existsb (String.eqb file_suffix) source_suffixes.

(** Line 120: the file name of the pytest file, without its ending. *)
Definition file_name_of (raw_file_name : string) : string :=
  Str.replace "-" "_" (Str.replace "." "_" (Str.replace " " "_" raw_file_name)).

(** Line 125: the class name. *)
Definition title_case_of (file_name : string) : string :=
  Str.remove "_" (Str.title file_name).

(** The suffix of a source file, in lower case. *)
Definition source_suffix (path : string) : string :=
  Str.lower (snd (Path.splitext (Path.basename path))).

(** Does a result stand for an exception of the given class? *)
Definition raises {A : Type} (c : exn_class) (r : result A) : bool :=
  match r with
  | Ok _ => false
  | Err e => exn_class_eqb (exn_cls e) c
  end.

Section Make.
Context (E : Env).

(** [__ensure_absolute]. *)
Definition __ensure_absolute (path : string) : M E string :=
  project_meta ← lift (load_project_meta E path);
  if Path.isabs path then mret path
  else mret (Path.join (PWD project_meta) path).

(** [__ensure_cwd_relative]: [path[len(os.getcwd()) + 1 :]]. *)
Definition __ensure_cwd_relative (path : string) : string :=
  if Path.isabs path then Str.drop (Str.length (getcwd E) + 1) path
  else path.

(** [__ensure_testcase_module]. *)
Definition __ensure_testcase_module (path : string) : M E unit :=
  let init_file := Path.join (Path.dirname path) "__init__.py" in
  is_file ← fs_read (fun fs => isfile E fs init_file);
  if is_file : bool then mret tt
  else open_write init_file ("# NOTICE: Generated By HttpRunner. DO NOT EDIT!" +:+ nl).

(** [convert_testcase_path], given whether the path is a directory. *)
Definition convert_testcase_path_in (is_dir : bool) (testcase_path : string)
  : result (string * string) :=
  if is_dir then Ok (testcase_path, "")
  else
    testcase_path ← __ensure_file_name testcase_path;
    let '(raw_file_name, file_suffix) := Path.splitext (Path.basename testcase_path) in
    let file_suffix := Str.lower file_suffix in
    if negb (suffix_allowed file_suffix) then
      Err (Exn ParamsError "testcase file should have .yaml/.yml/.json suffix")
    else
      let file_name := file_name_of raw_file_name in
      let testcase_dir := Path.dirname testcase_path in
      let testcase_python_path := Path.join testcase_dir (file_name +:+ "_test.py") in
      let name_in_title_case := title_case_of file_name in
      Ok (testcase_python_path, name_in_title_case).

(** [convert_testcase_path]. *)
Definition convert_testcase_path (testcase_path : string) : M E (string * string) :=
  is_dir ← fs_read (fun fs => isdir E fs testcase_path);
  lift (convert_testcase_path_in is_dir testcase_path).

(** [subprocess.run(args)]. *)
Definition run_subprocess (args : list string) : M E unit :=
  fun st =>
    let '(r, fs') := subprocess_run E args (fs st) in
    (r, {| fs := fs'; make_files_cache_set := make_files_cache_set st;
           pytest_files_set := pytest_files_set st;
           trace := trace st ++ [EvRun args] |}).

(** [format_pytest_with_black]. *)
Definition format_pytest_with_black (python_paths : list string) : M E unit :=
  logger_info "format pytest cases with black ...";;
  try_except (run_subprocess ("black" :: python_paths)) [CalledProcessError]
    (fun ex => capture_exception ex;; logger_error (exn_msg ex)).

(** One optional field of a fluent chain: [if key in d: chain += f(d[key])]. *)
Definition chain_if_present (key : string) (d : dict) (f : value -> string)
    (chain : string) : string :=
  match Py.lookup key d with
  | Some v => chain +:+ f v
  | None => chain
  end.

(** [make_config_chain_style]. *)
Definition make_config_chain_style (config : dict) : result string :=
  name ← Dyn.getitem "name" (VDict config);
  let config_chain_style := "Config(" +:+ dq +:+ Py.str name +:+ dq +:+ ")" in
  variables ← Dyn.getitem "variables" (VDict config);
  let config_chain_style :=
    if Py.truthy variables
    then config_chain_style +:+ ".variables(" +:+ "**" +:+ Py.str variables +:+ ")"
    else config_chain_style in
  let config_chain_style :=
    chain_if_present "base_url" config
      (fun v => ".base_url(" +:+ dq +:+ Py.str v +:+ dq +:+ ")") config_chain_style in
  let config_chain_style :=
    chain_if_present "verify" config
      (fun v => ".verify(" +:+ Py.str v +:+ ")") config_chain_style in
  let config_chain_style :=
    chain_if_present "export" config
      (fun v => ".export(" +:+ "*" +:+ Py.str v +:+ ")") config_chain_style in
  Ok config_chain_style.

(** [make_request_chain_style]. *)
Definition make_request_chain_style (request : dict) : result string :=
  method ← Dyn.getitem "method" (VDict request);
  method ← match method with
           | VStr m => Ok (Str.lower m)
           | _ => Err (Exn AttributeError "lower")
           end;
  url ← Dyn.getitem "url" (VDict request);
  let chain := "." +:+ method +:+ "(" +:+ dq +:+ Py.str url +:+ dq +:+ ")" in
  let chain := chain_if_present "params" request
      (fun v => ".with_params(" +:+ "**" +:+ Py.str v +:+ ")") chain in
  let chain := chain_if_present "headers" request
      (fun v => ".with_headers(" +:+ "**" +:+ Py.str v +:+ ")") chain in
  let chain := chain_if_present "cookies" request
      (fun v => ".with_cookies(" +:+ "**" +:+ Py.str v +:+ ")") chain in
  let chain := chain_if_present "data" request
      (fun data =>
         let data := if Py.is_text data then dq +:+ Py.str data +:+ dq else Py.str data in
         ".with_data(" +:+ data +:+ ")") chain in
  let chain := chain_if_present "json" request
      (fun v => ".with_json(" +:+ Py.str v +:+ ")") chain in
  let chain := chain_if_present "timeout" request
      (fun v => ".set_timeout(" +:+ Py.str v +:+ ")") chain in
  let chain := chain_if_present "verify" request
      (fun v => ".set_verify(" +:+ Py.str v +:+ ")") chain in
  let chain := chain_if_present "allow_redirects" request
      (fun v => ".set_allow_redirects(" +:+ Py.str v +:+ ")") chain in
  let chain := chain_if_present "upload" request
      (fun v => ".upload(" +:+ "**" +:+ Py.str v +:+ ")") chain in
  Ok chain.

(** The quoting of a validator's check expression, lines 241-245: whether
    a double quote occurs in [check] decides between the two kinds of
    quotes. *)
Definition quote_check (check : value) : result string :=
  has_dquote ← Dyn.contains dq check;
  if has_dquote : bool then Ok (sq +:+ Py.str check +:+ sq)
  else Ok (dq +:+ Py.str check +:+ dq).

(** The rendering of a validator's expected value, lines 246-248. *)
Definition quote_expect (expect : value) : string :=
  if Py.is_text expect then dq +:+ Py.str expect +:+ dq else Py.str expect.

(** The body of the loop over the validate entries, lines 238-249:
    the text it appends to [step_info]. *)
Definition make_validator_chain_style (v : value) : result string :=
  validator ← uniform_validator E v;
  let assert_method := v_assert validator in
  check ← quote_check (v_check validator);
  let expect := quote_expect (v_expect validator) in
  Ok (".assert_" +:+ Py.str assert_method +:+ "(" +:+ check +:+ ", " +:+ expect +:+ ")").

(** The body of the loop over the items of the extract entry. *)
Definition make_extract_chain_style (kv : string * value) : string :=
  let '(extract_name, extract_path) := kv in
  ".with_jmespath(" +:+ dq +:+ Py.str extract_path +:+ dq +:+ ", " +:+
  dq +:+ extract_name +:+ dq +:+ ")".

(** [make_teststep_chain_style]. *)
Definition make_teststep_chain_style (teststep : dict) : result string :=
  step_info ←
    (if Py.truthy (Py.get "request" teststep) then
       name ← Dyn.getitem "name" (VDict teststep);
       Ok ("RunRequest(" +:+ dq +:+ Py.str name +:+ dq +:+ ")")
     else if Py.truthy (Py.get "testcase" teststep) then
       name ← Dyn.getitem "name" (VDict teststep);
       Ok ("RunTestCase(" +:+ dq +:+ Py.str name +:+ dq +:+ ")")
     else
       Err (Exn TestCaseFormatError
                ("Invalid teststep: " +:+ Py.str (VDict teststep))));
  let step_info := chain_if_present "variables" teststep
      (fun v => ".with_variables(" +:+ "**" +:+ Py.str v +:+ ")") step_info in
  step_info ←
    (if Py.truthy (Py.get "request" teststep) then
       request ← Dyn.as_subscriptable (Py.get "request" teststep);
       chain ← make_request_chain_style request;
       Ok (step_info +:+ chain)
     else if Py.truthy (Py.get "testcase" teststep) then
       Ok (step_info +:+ ".call(" +:+ Py.str (Py.get "testcase" teststep) +:+ ")")
     else Ok step_info);
  step_info ←
    match Py.lookup "extract" teststep with
    | Some extract =>
        items ← Dyn.as_dict extract;
        Ok (step_info +:+ ".extract()" +:+
            Str.concat (List.map make_extract_chain_style items))
    | None => Ok step_info
    end;
  let step_info := chain_if_present "export" teststep
      (fun v => ".export(" +:+ "*" +:+ Py.str v +:+ ")") step_info in
  step_info ←
    match Py.lookup "validate" teststep with
    | Some validate =>
        validators ← Dyn.iter validate;
        chains ← map_result make_validator_chain_style validators;
        Ok (step_info +:+ ".validate()" +:+ Str.concat chains)
    | None => Ok step_info
    end;
  Ok ("Step(" +:+ step_info +:+ ")").

(** A path taken from a document.  The path functions are called on
    text; a value of another kind is modelled as raising [TypeError]. *)
Definition ensure_absolute_value (path : value) : M E string :=
  path ← lift (Dyn.as_text path);
  __ensure_absolute path.

(** The argument of [dict.update]: a dictionary.  An argument of another
    kind is modelled as raising [TypeError]. *)
Definition update_argument (other : value) : result dict :=
  match other with
  | VDict d => Ok d
  | _ => Err (Exn TypeError "update")
  end.

(** *** [make_testcase] *)

(** Lines 259-271: compatibility, validation and the path of the pytest
    file.  Returns the document, the absolute path of its source, the
    path of the pytest file and the class name. *)
Definition make_testcase_paths (testcase : dict) (dir_path : option string)
  : M E (dict * string * string * string) :=
  testcase ← lift (ensure_testcase_v3 E testcase);
  lift (load_testcase E testcase);;
  config ← lift (Dyn.getitem "config" (VDict testcase));
  path ← lift (Dyn.getitem "path" config);
  testcase_path ← ensure_absolute_value path;
  logger_info ("start to make testcase: " +:+ testcase_path);;
  '(testcase_python_path, testcase_cls_name) ← convert_testcase_path testcase_path;
  let testcase_python_path :=
    match dir_path with
    | Some (String c r as dir) => Path.join dir (Path.basename testcase_python_path)
    | _ => testcase_python_path
    end in
  mret (testcase, testcase_path, testcase_python_path, testcase_cls_name).

(** Lines 277-287: the path and the variables of the config. *)
Definition make_testcase_config (testcase : dict)
    (testcase_path testcase_python_path : string) : M E dict :=
  config ← lift (Dyn.getitem "config" (VDict testcase));
  config ← lift (Dyn.as_subscriptable config);
  let config := Py.set "path" (VStr (__ensure_cwd_relative testcase_python_path)) config in
  let config := Py.setdefault "variables" (VDict []) config in
  if Py.is_text (Py.get "variables" config) then
    project_meta ← lift (load_project_meta E testcase_path);
    variables ← lift (parse_data E (Py.get "variables" config) [] (functions project_meta));
    mret (Py.set "variables" variables config)
  else mret config.

(** The import line of a referenced testcase, lines 307-312. *)
Definition make_import (ref_testcase_python_path ref_testcase_cls_name : string) : string :=
  let ref_testcase_python_path :=
    Str.drop (Str.length (getcwd E) + 1) ref_testcase_python_path in
  let ref_module_name := fst (Path.splitext ref_testcase_python_path) in
  let ref_module_name := Str.replace Str.sep Str.dot ref_module_name in
  "from " +:+ ref_module_name +:+ " import TestCase" +:+ ref_testcase_cls_name +:+
  " as " +:+ ref_testcase_cls_name.

(** Lines 290-312: the loop over the teststeps that makes the referenced
    testcases.  [make] is [__make].  Returns [imports_list] and the
    teststeps, in which the reference steps now name a class. *)
Fixpoint make_testcase_refs (make : string -> bool -> M E unit)
    (teststeps : list value) : M E (list string * list dict) :=
  match teststeps with
  | [] => mret ([], [])
  | teststep :: rest =>
      teststep ← lift (Dyn.as_dict teststep);
      if negb (Py.truthy (Py.get "testcase" teststep)) then
        '(imports_list, steps) ← make_testcase_refs make rest;
        mret (imports_list, teststep :: steps)
      else
        ref_testcase_path ← ensure_absolute_value (Py.get "testcase" teststep);
        make ref_testcase_path true;;
        '(ref_testcase_python_path, ref_testcase_cls_name) ←
          convert_testcase_path ref_testcase_path;
        let teststep := Py.set "testcase" (VStr ref_testcase_cls_name) teststep in
        let import_str := make_import ref_testcase_python_path ref_testcase_cls_name in
        '(imports_list, steps) ← make_testcase_refs make rest;
        mret (import_str :: imports_list, teststep :: steps)
  end.

(** Lines 314-324: the text of the pytest file. *)
Definition make_testcase_content (testcase_path testcase_cls_name : string)
    (imports_list : list string) (config : dict) (teststeps : list dict)
  : result string :=
  config_chain_style ← make_config_chain_style config;
  teststeps_chain_style ← map_result make_teststep_chain_style teststeps;
  Ok (render_template (version E) (__ensure_cwd_relative testcase_path)
        ("TestCase" +:+ testcase_cls_name) imports_list
        config_chain_style teststeps_chain_style).

(** Lines 326-336: the write, the module marker and the cache. *)
Definition make_testcase_write (testcase_python_path content : string)
    (ref_flag : bool) : M E string :=
  open_write testcase_python_path content;;
  __ensure_testcase_module testcase_python_path;;
  logger_info ("generated testcase: " +:+ testcase_python_path);;
  (if negb ref_flag
   then cache_add (__ensure_cwd_relative testcase_python_path)
   else mret tt);;
  mret testcase_python_path.

(** Lines 277-336, what [make_testcase] does when the cache does not
    hold the path of the pytest file. *)
Definition make_testcase_generate (make : string -> bool -> M E unit)
    (testcase : dict) (testcase_path testcase_python_path testcase_cls_name : string)
    (ref_flag : bool) : M E string :=
  config ← make_testcase_config testcase testcase_path testcase_python_path;
  teststeps ← lift (Dyn.getitem "teststeps" (VDict testcase));
  teststeps ← lift (Dyn.iter teststeps);
  '(imports_list, teststeps) ← make_testcase_refs make teststeps;
  content ← lift (make_testcase_content testcase_path testcase_cls_name
                    imports_list config teststeps);
  make_testcase_write testcase_python_path content ref_flag.

(** [make_testcase], with [__make] as a parameter. *)
Definition make_testcase_with (make : string -> bool -> M E unit)
    (testcase : dict) (dir_path : option string) (ref_flag : bool) : M E string :=
  '(testcase, testcase_path, testcase_python_path, testcase_cls_name) ←
    make_testcase_paths testcase dir_path;
  cached ← cache_mem testcase_python_path;
  if cached : bool then mret testcase_python_path
  else make_testcase_generate make testcase testcase_path testcase_python_path
         testcase_cls_name ref_flag.

(** *** [make_testsuite] *)

(** Lines 366-384: the document of one referenced testcase with the
    overrides of the testsuite applied.  [testcase] is the entry of the
    testsuite and [testcase_dict] the document loaded from its file. *)
Definition override_testcase (testsuite_config : dict) (testsuite_variables : value)
    (testcase : value) (testcase_path : string) (testcase_dict : value)
  : result dict :=
  testcase_dict ← Dyn.as_dict testcase_dict;
  let testcase_dict := Py.setdefault "config" (VDict []) testcase_dict in
  config ← Dyn.as_subscriptable (Py.get "config" testcase_dict);
  let config := Py.set "path" (VStr testcase_path) config in
  name ← Dyn.getitem "name" testcase;
  let config := Py.set "name" name config in
  entry ← Dyn.as_dict testcase;
  let base_url :=
    if Py.truthy (Py.get "base_url" testsuite_config)
    then Py.get "base_url" testsuite_config
    else Py.get "base_url" entry in
  let config := if Py.truthy base_url then Py.set "base_url" base_url config else config in
  let config :=
    match Py.lookup "verify" testsuite_config with
    | Some verify => Py.set "verify" verify config
    | None => config
    end in
  let config := Py.setdefault "variables" (VDict []) config in
  variables ← Dyn.as_dict (Py.get "variables" config);
  other ← update_argument (Py.get_default "variables" (VDict []) entry);
  let variables := Py.update variables other in
  other ← update_argument testsuite_variables;
  let variables := Py.update variables other in
  let config := Py.set "variables" (VDict variables) config in
  Ok (Py.set "config" (VDict config) testcase_dict).

(** The body of the loop over the testcases of a testsuite. *)
Definition make_testsuite_case
    (make_testcase : dict -> option string -> bool -> M E string)
    (testsuite_config : dict) (testsuite_variables : value) (testsuite_dir : string)
    (testcase : value) : M E unit :=
  testcase_file ← lift (Dyn.getitem "testcase" testcase);
  testcase_path ← ensure_absolute_value testcase_file;
  testcase_dict ← fs_load (load_test_file E testcase_path);
  testcase_dict ← lift (override_testcase testsuite_config testsuite_variables
                          testcase testcase_path testcase_dict);
  make_testcase testcase_dict (Some testsuite_dir) false;;
  mret tt.

(** [make_testsuite], with [make_testcase] as a parameter. *)
Definition make_testsuite_with
    (make_testcase : dict -> option string -> bool -> M E string)
    (testsuite : dict) : M E unit :=
  lift (load_testsuite E testsuite);;
  testsuite_config ← lift (Dyn.getitem "config" (VDict testsuite));
  testsuite_path ← lift (Dyn.getitem "path" testsuite_config);
  testsuite_config ← lift (Dyn.as_dict testsuite_config);
  let testsuite_variables := Py.get_default "variables" (VDict []) testsuite_config in
  testsuite_variables ←
    (if Py.is_text testsuite_variables then
       path ← lift (Dyn.as_text testsuite_path);
       project_meta ← lift (load_project_meta E path);
       lift (parse_data E testsuite_variables [] (functions project_meta))
     else mret testsuite_variables);
  logger_info ("start to make testsuite: " +:+ Py.str testsuite_path);;
  testsuite_path ← lift (Dyn.as_text testsuite_path);
  let testsuite_dir :=
    Path.join (Path.dirname testsuite_path)
              (Str.replace "." "_" (Path.basename testsuite_path)) in
  os_makedirs testsuite_dir;;
  testcases ← lift (Dyn.getitem "testcases" (VDict testsuite));
  testcases ← lift (Dyn.iter testcases);
  for_each (make_testsuite_case make_testcase testsuite_config testsuite_variables
              testsuite_dir) testcases.

(** *** [__make] *)

(** Lines 419-423: a loaded document is brought to the format of a
    testcase when it is a single request, and is given its path. *)
Definition prepare_test_content (test_file : string) (test_content : value)
  : result dict :=
  is_api ← Dyn.contains "request" test_content;
  test_content ←
    (if is_api : bool then ensure_testcase_v3_api E test_content
     else Ok test_content);
  test_content ← Dyn.as_dict test_content;
  let test_content := Py.setdefault "config" (VDict []) test_content in
  config ← Dyn.as_subscriptable (Py.get "config" test_content);
  Ok (Py.set "config" (VDict (Py.set "path" (VStr test_file) config)) test_content).

(** The body of the loop over [test_files], lines 409-441. *)
Definition make_file (make_testcase : dict -> option string -> bool -> M E string)
    (ref_flag : bool) (test_file : string) : M E unit :=
  if Str.endswith "_test.py" (Str.lower test_file) then pytest_add test_file
  else
    loaded ← try_except
                (test_content ← fs_load (load_test_file E test_file);
                 mret (Some test_content))
                [FileNotFound; FileFormatError]
                (fun ex => logger_warning (exn_msg ex);; mret None);
    match loaded with
    | None => mret tt
    | Some test_content =>
        test_content ← lift (prepare_test_content test_file test_content);
        if Py.has "teststeps" test_content then
          try_except (make_testcase test_content None ref_flag;; mret tt)
            [TestCaseFormatError] (fun _ => mret tt)
        else if Py.has "testcases" test_content then
          try_except (make_testsuite_with make_testcase test_content)
            [TestSuiteFormatError] (fun _ => mret tt)
        else
          logger_warning ("skip invalid testcase/testsuite file: " +:+ test_file)
    end.

(** [__make], with [make_testcase] as a parameter. *)
Definition make_with (make_testcase : dict -> option string -> bool -> M E string)
    (tests_path : string) (ref_flag : bool) : M E unit :=
  is_dir ← fs_read (fun fs => isdir E fs tests_path);
  is_file ← fs_read (fun fs => isfile E fs tests_path);
  test_files ←
    (if is_dir : bool then fs_load (load_folder_files E tests_path)
     else if is_file : bool then mret [tests_path]
     else raise (Exn TestcaseNotFound ("Invalid tests path: " +:+ tests_path)));
  for_each (make_file make_testcase ref_flag) test_files.

(** [make_testcase] calls [__make] for every reference step, and [__make]
    calls [make_testcase] again: [depth] bounds the nesting of these
    calls, and a chain of references deeper than that ends, as it does
    in Python, in [RecursionError]. *)
Fixpoint make_testcase (depth : nat) (testcase : dict) (dir_path : option string)
    (ref_flag : bool) : M E string :=
  match depth with
  | 0 => raise (Exn RecursionError "maximum recursion depth exceeded")
  | S depth' =>
      make_testcase_with (make_with (make_testcase depth')) testcase dir_path ref_flag
  end.

(** [make_testsuite]. *)
Definition make_testsuite (depth : nat) (testsuite : dict) : M E unit :=
  make_testsuite_with (make_testcase depth) testsuite.

(** [__make]. *)
Definition __make (depth : nat) (tests_path : string) (ref_flag : bool) : M E unit :=
  make_with (make_testcase depth) tests_path ref_flag.

(** *** [main_make] *)

(** Lines 448-455: the loop over the paths and the list of the pytest
    files. *)
Definition main_make_collect (depth : nat) (tests_paths : list string)
  : M E (list string) :=
  for_each (fun tests_path =>
              let tests_path :=
                if negb (Path.isabs tests_path)
                then Path.join (getcwd E) tests_path
                else tests_path in
              __make depth tests_path false) tests_paths;;
  pytest_update_from_cache;;
  pytest_list.

(** [main_make]. *)
Definition main_make (depth : nat) (tests_paths : list string) : M E (list string) :=
  match tests_paths with
  | [] => mret []
  | _ =>
      pytest_files_list ← main_make_collect depth tests_paths;
      format_pytest_with_black pytest_files_list;;
      mret pytest_files_list
  end.

End Make.

(** ** Vocabulary of the properties *)



(** Two states with the same two sets. *)
Definition same_sets {E : Env} (st st' : State E) : Prop :=
  make_files_cache_set st' = make_files_cache_set st
  /\ pytest_files_set st' = pytest_files_set st.

(** A computation that leaves the two sets alone, whatever it returns. *)
Definition keeps_sets {E : Env} {A : Type} (m : M E A) : Prop :=
  forall (st : State E) (r : result A) (st' : State E),
    m st = (r, st') -> same_sets st st'.


(** A teststep that names no testcase. *)
Definition plain_step (teststep : value) : bool :=
  match teststep with
  | VDict d => negb (Py.truthy (Py.get "testcase" d))
  | _ => true
  end.





(** A computation that may read the state and does not change it. *)
Definition leaves_state {E : Env} {A : Type} (m : M E A) : Prop :=
  forall (st : State E) (r : result A) (st' : State E), m st = (r, st') -> st' = st.

(** A state with one more entry in its trace. *)
Definition logged {E : Env} (ev : event) (st : State E) : State E :=
  {| fs := fs st; make_files_cache_set := make_files_cache_set st;
     pytest_files_set := pytest_files_set st; trace := trace st ++ [ev] |}.


(** Lines 449-450: a path given to [main_make], made absolute. *)
Definition tests_path_absolute (E : Env) (tests_path : string) : string :=
  if negb (Path.isabs tests_path) then Path.join (getcwd E) tests_path else tests_path.

(** ** A small world to run the module in *)

(** A file system in which every source file is kept with the document
    its loading yields, together with collaborators that accept every
    document.  It serves to run the functions above on concrete inputs. *)
Module Sim.

Record files : Type := {
  sources : list (string * value);
  written : list (string * string);
  dirs : list string;
}.

Definition has_key {A : Type} (p : string) (l : list (string * A)) : bool :=
  existsb (fun kv => String.eqb (fst kv) p) l.

Fixpoint find_source (p : string) (l : list (string * value)) : option value :=
  match l with
  | [] => None
  | (k, v) :: r => if String.eqb k p then Some v else find_source p r
  end.

Definition sim_isdir (f : files) (p : string) : bool :=
  existsb (String.eqb p) (dirs f).

Definition sim_isfile (f : files) (p : string) : bool :=
  has_key p (sources f) || has_key p (written f).

Definition sim_write (p content : string) (f : files) : result files :=
  Ok {| sources := sources f; written := (p, content) :: written f; dirs := dirs f |}.

Definition sim_makedirs (p : string) (f : files) : result files :=
  Ok {| sources := sources f; written := written f; dirs := p :: dirs f |}.

(** The files below a folder that the loader picks up. *)
Definition sim_folder_files (d : string) (f : files) : result (list string) :=
  Ok (List.filter
        (fun p => Str.startswith (d +:+ "/") p
                  && (Str.endswith ".yml" p || Str.endswith ".yaml" p
                      || Str.endswith ".json" p || Str.endswith "_test.py" p))
        (List.map fst (sources f) ++ List.map fst (written f))).

Definition sim_load (p : string) (f : files) : result value :=
  match find_source p (sources f) with
  | Some v => Ok v
  | None => Err (Exn FileNotFound p)
  end.

(** Validators written as a one-entry mapping from the comparator to the
    pair of the check expression and the expected value. *)
Definition sim_validator (v : value) : result Validator :=
  match v with
  | VDict [(comparator, VList [check; expect])] =>
      Ok {| v_check := check; v_expect := expect; v_assert := VStr comparator |}
  | _ => Err (Exn ParamsError "invalid validator")
  end.

Definition env (cwd : string) (black : list string -> result unit) : Env := {|
  FS := files;
  Functions := unit;
  getcwd := cwd;
  version := "3.0.0";
  isdir := sim_isdir;
  isfile := sim_isfile;
  write_file := sim_write;
  makedirs := sim_makedirs;
  load_folder_files := sim_folder_files;
  load_test_file := sim_load;
  load_testcase := fun _ => Ok tt;
  load_testsuite := fun _ => Ok tt;
  load_project_meta := fun _ => Ok {| PWD := cwd; functions := tt |};
  parse_data := fun v _ _ => Ok v;
  ensure_testcase_v3 := fun d => Ok d;
  ensure_testcase_v3_api := fun v => Ok v;
  uniform_validator := sim_validator;
  subprocess_run := fun args f => (black args, f);
|}.

Definition init (E : Env) (f : FS E) : State E :=
  {| fs := f; make_files_cache_set := ∅; pytest_files_set := ∅; trace := [] |}.

(** The paths written so far, oldest first. *)
Definition writes_to (p : string) (tr : list event) : nat :=
  List.length (List.filter
                 (fun ev => match ev with
                            | EvWrite q _ => String.eqb q p
                            | _ => false
                            end) tr).

(** A project with one testcase, [cases/ping.yml], which has one request
    step and one validator. *)
Definition ping : dict :=
  [("config", VDict [("name", VStr "ping"); ("path", VStr "/w/cases/ping.yml")]);
   ("teststeps",
    VList [VDict [("name", VStr "s1");
                  ("request", VDict [("method", VStr "GET"); ("url", VStr "/ping")]);
                  ("validate",
                   VList [VDict [("eq", VList [VStr "status_code"; VInt 200])]])]])].

Definition project : files :=
  {| sources := [("/w/cases/ping.yml", VDict ping)];
     written := [];
     dirs := ["/w"; "/w/cases"] |}.


(** A second testcase, whose only step has neither a request nor a
    testcase, and a folder that holds both. *)
Definition broken : dict :=
  [("config", VDict [("name", VStr "broken"); ("path", VStr "/w/cases/broken.yml")]);
   ("teststeps", VList [VDict [("name", VStr "s1")]])].

Definition folder : files :=
  {| sources := [("/w/cases/broken.yml", VDict broken);
                 ("/w/cases/ping.yml", VDict ping)];
     written := [];
     dirs := ["/w"; "/w/cases"] |}.

(** A third testcase, whose request step has no name, in a folder with
    the sound one. *)
Definition nameless : dict :=
  [("config", VDict [("name", VStr "nameless"); ("path", VStr "/w/cases/nameless.yml")]);
   ("teststeps",
    VList [VDict [("request", VDict [("method", VStr "GET"); ("url", VStr "/ping")])]])].

Definition nameless_folder : files :=
  {| sources := [("/w/cases/nameless.yml", VDict nameless);
                 ("/w/cases/ping.yml", VDict ping)];
     written := [];
     dirs := ["/w"; "/w/cases"] |}.

(** A testsuite of two testcases, the first of which is in a file that
    does not exist, in a folder with the sound testcase. *)
Definition suite : dict :=
  [("config", VDict [("name", VStr "suite")]);
   ("testcases",
    VList [VDict [("name", VStr "first"); ("testcase", VStr "cases/gone.yml")];
           VDict [("name", VStr "second"); ("testcase", VStr "cases/ping.yml")]])].

Definition suite_folder : files :=
  {| sources := [("/w/cases/all.yml", VDict suite); ("/w/cases/ping.yml", VDict ping)];
     written := [];
     dirs := ["/w"; "/w/cases"] |}.

(** A project in [/w] in which [black] runs without failing. *)
Definition demo : Env := env "/w" (fun _ => Ok tt).

Definition no_files : files := {| sources := []; written := []; dirs := [] |}.

End Sim.

(** * Properties *)

Example basename_ex : Path.basename "testcases/19.json" = "19.json".
Proof. reflexivity. Qed.
Example dirname_ex : Path.dirname "/a//b.json" = "/a".
Proof. reflexivity. Qed.
Example splitext_hidden_ex : Path.splitext ".hidden" = (".hidden", "").
Proof. reflexivity. Qed.
Example splitext_nested_ex : Path.splitext "a/b.c/d.tar.gz" = ("a/b.c/d.tar", ".gz").
Proof. reflexivity. Qed.
Example title_ex : Str.title "request_with_variables" = "Request_With_Variables".
Proof. reflexivity. Qed.


(** ** Facts about text *)

Section StrFacts.

#[local] Arguments String.append !_ _ / : simpl nomatch.
#[local] Arguments Ascii.eqb : simpl never.

Lemma append_empty_r (s : string) : s +:+ "" = s.
Proof. induction s as [|a s IH]; simpl; [done | by rewrite IH]. Qed.

Lemma append_assoc (x y z : string) : (x +:+ y) +:+ z = x +:+ y +:+ z.
Proof. induction x as [|a x IH]; simpl; [done | by rewrite IH]. Qed.

Lemma length_append (x y : string) :
  Str.length (x +:+ y) = Str.length x + Str.length y.
Proof. induction x as [|a x IH]; simpl; [done | by rewrite IH]. Qed.

Lemma drop_append_length (x y : string) : Str.drop (Str.length x) (x +:+ y) = y.
Proof. induction x as [|a x IH]; simpl; [by destruct y | done]. Qed.

Lemma take_append_length (x y : string) : Str.take (Str.length x) (x +:+ y) = x.
Proof. induction x as [|a x IH]; simpl; [by destruct y | by rewrite IH]. Qed.

Lemma take_drop (n : nat) (s : string) : Str.take n s +:+ Str.drop n s = s.
Proof.
  revert s; induction n as [|n IH]; intros [|a s]; simpl; try done.
  by rewrite IH.
Qed.

Lemma contains_append (c : ascii) (x y : string) :
  Str.contains c (x +:+ y) = Str.contains c x || Str.contains c y.
Proof.
  induction x as [|a x IH]; simpl; [done|].
  destruct (Ascii.eqb a c); [done | apply IH].
Qed.

Lemma rfind_none (c : ascii) (s : string) :
  Str.rfind c s = None <-> Str.contains c s = false.
Proof.
  induction s as [|a s IH]; simpl; [done|].
  destruct (Str.rfind c s) as [i|].
  - split; [done|]. destruct (Ascii.eqb a c); [done|].
    intros H. apply IH in H. done.
  - destruct (Ascii.eqb a c); [done|]. split; [|done]. intros _. by apply IH.
Qed.

Lemma rfind1_absent (c : ascii) (s : string) :
  Str.contains c s = false -> Str.rfind1 c s = 0.
Proof. intros H. apply rfind_none in H. unfold Str.rfind1. by rewrite H. Qed.

(** The last occurrence of [c] splits the text. *)
Lemma rfind_append (c : ascii) (x y : string) :
  Str.contains c y = false ->
  Str.rfind c (x +:+ String c y) = Some (Str.length x).
Proof.
  intros Hy. induction x as [|a x IH]; simpl.
  - apply rfind_none in Hy. rewrite Hy. by rewrite Ascii.eqb_refl.
  - by rewrite IH.
Qed.

Lemma rfind_some (c : ascii) (s : string) (i : nat) :
  Str.rfind c s = Some i ->
  s = Str.take i s +:+ String c (Str.drop (S i) s)
  /\ Str.contains c (Str.drop (S i) s) = false
  /\ Str.length (Str.take i s) = i.
Proof.
  revert i; induction s as [|a s IH]; intros i; simpl; [done|].
  destruct (Str.rfind c s) as [j|] eqn:Hj.
  - intros [= <-]. destruct (IH j eq_refl) as (H1 & H2 & H3).
    split_and!.
    + change (String a s = String a (Str.take j s +:+ String c (Str.drop (S j) s))).
      f_equal. exact H1.
    + exact H2.
    + change (S (Str.length (Str.take j s)) = S j). by rewrite H3.
  - destruct (Ascii.eqb_spec a c) as [->|]; [|done].
    intros [= <-]. simpl. apply rfind_none in Hj.
    split_and!; [by destruct s | by destruct s | done].
Qed.

Lemma rfind1_append_sep (c : ascii) (x y : string) :
  Str.contains c y = false ->
  Str.rfind1 c (x +:+ String c y) = S (Str.length x).
Proof. intros H. unfold Str.rfind1. by rewrite rfind_append. Qed.

Lemma startswith_sep_absent (f : string) :
  Str.contains Str.sep f = false -> Str.startswith "/" f = false.
Proof.
  destruct f as [|a f]; simpl; [done|]. unfold Str.sep.
  destruct (Ascii.eqb_spec a "/") as [->|Hne]; [done|]. intros _.
  by destruct (Ascii.eqb_spec "/" a) as [<-|].
Qed.

Lemma endswith_append_chr (x : string) (a c : ascii) :
  Str.endswith (String c "") (x +:+ String a "") = Ascii.eqb a c.
Proof.
  unfold Str.endswith. rewrite length_append. simpl.
  replace (Str.length x + 1 - 1) with (Str.length x) by lia.
  rewrite drop_append_length. simpl.
  destruct (Ascii.eqb a c); simpl; [|done].
  destruct (Str.length x + 1) eqn:Hl; [lia | done].
Qed.

(** A non-empty text ends with some character. *)
Lemma last_char (s : string) :
  s = "" \/ exists x a, s = x +:+ String a "".
Proof.
  induction s as [|a s IH]; [by left | right].
  destruct IH as [->|(x & b & ->)].
  - by exists "", a.
  - by exists (String a x), b.
Qed.

Lemma rstrip_append_same (c : ascii) (x : string) :
  Str.rstrip c (x +:+ String c "") = Str.rstrip c x.
Proof.
  induction x as [|a x IH]; simpl.
  - by rewrite Ascii.eqb_refl.
  - by rewrite IH.
Qed.

Lemma rstrip_append_other (c a : ascii) (x : string) :
  a <> c -> Str.rstrip c (x +:+ String a "") = x +:+ String a "".
Proof.
  intros Hne. induction x as [|b x IH]; simpl.
  - apply Ascii.eqb_neq in Hne. by rewrite Hne.
  - rewrite IH. by destruct x.
Qed.

Lemma all_eq_append (c : ascii) (x y : string) :
  Str.all_eq c (x +:+ y) = Str.all_eq c x && Str.all_eq c y.
Proof.
  induction x as [|a x IH]; simpl; [done|].
  rewrite IH. by rewrite andb_assoc.
Qed.

Lemma rstrip_all_eq (c : ascii) (x : string) :
  Str.all_eq c x = true -> Str.rstrip c x = "".
Proof.
  induction x as [|a x IH]; simpl; [done|].
  intros [Ha Hx]%andb_true_iff. rewrite (IH Hx). by rewrite Ha.
Qed.

(** What [rstrip] leaves of a text that is not made of [c] alone ends
    with another character, so stripping it again changes nothing. *)
Lemma rstrip_shape (c : ascii) (x : string) :
  Str.all_eq c x = false ->
  exists y a, Str.rstrip c x = y +:+ String a "" /\ a <> c.
Proof.
  induction x as [|b x IH]; simpl; [done|].
  destruct (Ascii.eqb_spec b c) as [->|Hne]; simpl.
  - intros Hx. destruct (IH Hx) as (y & a & -> & Ha).
    exists (String c y), a. split; [|done]. by destruct y.
  - intros _. destruct (Str.all_eq c x) eqn:Hx.
    + rewrite (rstrip_all_eq _ _ Hx). by exists "", b.
    + destruct (IH eq_refl) as (y & a & -> & Ha).
      exists (String b y), a. split; [|done]. by destruct y.
Qed.

Lemma contains_digits (c : ascii) :
  Str.contains c string_digits = Str.is_digit c.
Proof. by destruct c as [[] [] [] [] [] [] [] []]. Qed.

End StrFacts.

(** ** Facts about paths *)

Section PathFacts.

#[local] Arguments String.append !_ _ / : simpl nomatch.
#[local] Arguments Ascii.eqb : simpl never.

Lemma head_basename (p : string) : Path.head p +:+ Path.basename p = p.
Proof. apply take_drop. Qed.

Lemma basename_no_sep (p : string) : Str.contains Str.sep (Path.basename p) = false.
Proof.
  unfold Path.basename, Str.rfind1.
  destruct (Str.rfind Str.sep p) as [i|] eqn:Hi.
  - by destruct (rfind_some _ _ _ Hi) as (_ & ? & _).
  - by apply rfind_none.
Qed.

Lemma head_no_sep (f : string) : Str.contains Str.sep f = false -> Path.head f = "".
Proof. intros H. unfold Path.head. by rewrite rfind1_absent. Qed.

Lemma basename_no_sep_id (f : string) :
  Str.contains Str.sep f = false -> Path.basename f = f.
Proof. intros H. unfold Path.basename. by rewrite rfind1_absent. Qed.

Lemma head_append_sep (x f : string) :
  Str.contains Str.sep f = false -> Path.head (x +:+ String "/" f) = x +:+ "/".
Proof.
  intros H. unfold Path.head.
  unfold Str.sep in *. rewrite rfind1_append_sep by done.
  change (String "/" f) with ("/" +:+ f). rewrite <-append_assoc.
  replace (S (Str.length x)) with (Str.length (x +:+ "/"))
    by (rewrite length_append; simpl; lia).
  apply take_append_length.
Qed.

Lemma head_shape (p : string) :
  Path.head p = "" \/ exists x, Path.head p = x +:+ "/".
Proof.
  destruct (Str.rfind Str.sep p) as [i|] eqn:Hi.
  - right. destruct (rfind_some _ _ _ Hi) as (Hp & Hd & _).
    exists (Str.take i p).
    remember (Str.take i p) as t eqn:Ht. remember (Str.drop (S i) p) as d eqn:Hd'.
    clear Ht Hd' Hi. subst p. by apply head_append_sep.
  - left. apply head_no_sep. by apply rfind_none.
Qed.

Lemma basename_append_sep (x f : string) :
  Str.contains Str.sep f = false -> Path.basename (x +:+ String "/" f) = f.
Proof.
  intros H. unfold Path.basename.
  unfold Str.sep in *. rewrite rfind1_append_sep by done.
  change (String "/" f) with ("/" +:+ f). rewrite <-append_assoc.
  replace (S (Str.length x)) with (Str.length (x +:+ "/"))
    by (rewrite length_append; simpl; lia).
  apply drop_append_length.
Qed.

(** [dirname] in terms of the head of the path. *)
Lemma dirname_head (p : string) :
  Path.dirname p =
    if negb (String.eqb (Path.head p) "") && negb (Str.all_eq Str.sep (Path.head p))
    then Str.rstrip Str.sep (Path.head p) else Path.head p.
Proof. reflexivity. Qed.

Lemma append_sep_not_empty (x : string) : String.eqb (x +:+ "/") "" = false.
Proof. by destruct x. Qed.

Lemma all_eq_append_sep (x : string) :
  Str.all_eq Str.sep (x +:+ "/") = Str.all_eq Str.sep x.
Proof. rewrite all_eq_append. simpl. by rewrite andb_true_r. Qed.

(** Joining a directory with a file name that has no separator. *)
Lemma join_file (d f : string) :
  Str.contains Str.sep f = false ->
  Path.join d f =
    if String.eqb d "" || Str.endswith "/" d then d +:+ f else d +:+ String "/" f.
Proof. intros H. unfold Path.join. by rewrite startswith_sep_absent. Qed.

Lemma endswith_sep_inv (d : string) :
  Str.endswith "/" d = true -> exists x, d = x +:+ "/".
Proof.
  destruct (last_char d) as [->|(x & a & ->)]; [done|].
  rewrite endswith_append_chr.
  intros ->%Ascii.eqb_eq. by exists x.
Qed.

(** The base name of a file joined to a directory is the file name. *)
Lemma basename_join (d f : string) :
  Str.contains Str.sep f = false -> Path.basename (Path.join d f) = f.
Proof.
  intros H. rewrite join_file by done.
  destruct (String.eqb_spec d "") as [->|Hd]; simpl.
  - by apply basename_no_sep_id.
  - destruct (Str.endswith "/" d) eqn:He.
    + destruct (endswith_sep_inv _ He) as [x ->].
      rewrite append_assoc. simpl. by apply basename_append_sep.
    + by apply basename_append_sep.
Qed.

Lemma dirname_append_sep (x f : string) :
  Str.contains Str.sep f = false ->
  Path.dirname (x +:+ String "/" f) =
    if Str.all_eq Str.sep x then x +:+ "/" else Str.rstrip Str.sep x.
Proof.
  intros H. rewrite dirname_head, head_append_sep by done.
  rewrite append_sep_not_empty, all_eq_append_sep. simpl.
  destruct (Str.all_eq Str.sep x); simpl; [done|].
  apply rstrip_append_same.
Qed.

(** Replacing the file name of a path keeps its directory. *)
Lemma dirname_join_dirname (p f : string) :
  Str.contains Str.sep f = false ->
  Path.dirname (Path.join (Path.dirname p) f) = Path.dirname p.
Proof.
  intros H. rewrite (dirname_head p).
  destruct (head_shape p) as [->|[x ->]]; simpl.
  - rewrite join_file by done. simpl.
    rewrite dirname_head, head_no_sep by done. done.
  - rewrite append_sep_not_empty, all_eq_append_sep. simpl.
    destruct (Str.all_eq Str.sep x) eqn:Hx; simpl.
    + rewrite join_file by done. rewrite append_sep_not_empty. simpl.
      rewrite endswith_append_chr.
      rewrite Ascii.eqb_refl, append_assoc. simpl.
      rewrite dirname_append_sep by done. by rewrite Hx.
    + rewrite rstrip_append_same.
      destruct (rstrip_shape _ _ Hx) as (y & a & Hy & Ha).
      unfold Str.sep in *. rewrite Hy.
      rewrite join_file by done.
      assert (String.eqb (y +:+ String a "") "" = false) as -> by by destruct y.
      rewrite endswith_append_chr.
      apply Ascii.eqb_neq in Ha as Ha'. rewrite Ha'. simpl.
      rewrite dirname_append_sep by done.
      unfold Str.sep. rewrite all_eq_append. simpl. rewrite Ha'. rewrite andb_false_r.
      by apply rstrip_append_other.
Qed.

End PathFacts.

(** ** The path of the pytest file *)

Section ConvertFacts.

#[local] Arguments String.append !_ _ / : simpl nomatch.
#[local] Arguments Ascii.eqb : simpl never.

Lemma digit_plain (c : ascii) :
  Str.is_digit c = true ->
  c <> "."%char /\ c <> "/"%char /\ Str.is_lower c = false /\ Str.is_upper c = false
  /\ Ascii.eqb c " " = false /\ Ascii.eqb c "." = false /\ Ascii.eqb c "-" = false.
Proof.
  destruct c as [[] [] [] [] [] [] [] []]; vm_compute; intros H;
    first [discriminate H | by split_and!].
Qed.

(** Prefixing a file name that starts with a digit leaves its suffix
    alone and prefixes its root. *)
Lemma splitext_prefixed (c : ascii) (rest : string) :
  Str.is_digit c = true ->
  Str.contains Str.sep (String c rest) = false ->
  Path.splitext (String "T" (String c rest))
  = (String "T" (fst (Path.splitext (String c rest))),
     snd (Path.splitext (String c rest))).
Proof.
  intros Hc Hs. destruct (digit_plain c Hc) as (Hdot & _ & _ & _ & _ & Hd & _).
  assert (Str.contains Str.sep (String "T" (String c rest)) = false) as Hs'.
  { simpl in *. exact Hs. }
  unfold Path.splitext.
  rewrite (rfind1_absent _ _ Hs), (rfind1_absent _ _ Hs').
  change (Str.rfind Str.dot (String "T" (String c rest)))
    with (match Str.rfind Str.dot (String c rest) with
          | Some i => Some (S i)
          | None => None
          end).
  destruct (Str.rfind Str.dot (String c rest)) as [i|] eqn:Hi; [|done].
  simpl in Hi. destruct (Str.rfind Str.dot rest) as [j|].
  - injection Hi as <-. simpl.
    unfold Str.at1. simpl. unfold Str.dot in *. by rewrite Hd.
  - unfold Str.dot in *. by rewrite Hd in Hi.
Qed.

Lemma splitext_root_first (c : ascii) (rest : string) :
  exists x, fst (Path.splitext (String c rest)) = String c x.
Proof.
  unfold Path.splitext.
  destruct (Str.rfind Str.dot (String c rest)) as [[|i]|]; [| |by eexists].
  - rewrite Nat.sub_0_l. simpl. rewrite andb_false_r. by eexists.
  - destruct (_ && _); by eexists.
Qed.

Lemma file_name_of_digit (c : ascii) (x : string) :
  Str.is_digit c = true -> file_name_of (String c x) = String c (file_name_of x).
Proof.
  intros Hc. destruct (digit_plain c Hc) as (_ & _ & _ & _ & H1 & H2 & H3).
  unfold file_name_of, Str.replace. simpl. by rewrite H1, H2, H3.
Qed.

Lemma file_name_of_prefixed (x : string) :
  file_name_of (String "T" x) = String "T" (file_name_of x).
Proof. reflexivity. Qed.

Lemma title_case_of_prefixed (c : ascii) (x : string) :
  Str.is_digit c = true ->
  title_case_of (String "T" (String c x)) = String "T" (title_case_of (String c x)).
Proof.
  intros Hc. destruct (digit_plain c Hc) as (_ & _ & Hl & Hu & _).
  unfold title_case_of, Str.title. simpl. by rewrite Hl, Hu.
Qed.

(** The result of [convert_testcase_path] for a file whose name starts
    with a digit, in terms of the path it was given. *)
Lemma convert_digit (path : string) (c : ascii) (rest : string) :
  Path.basename path = String c rest ->
  Str.is_digit c = true ->
  convert_testcase_path_in false path =
    if suffix_allowed (source_suffix path) then
      let file_name := file_name_of (fst (Path.splitext (Path.basename path))) in
      Ok (Path.join (Path.dirname path) (("T" +:+ file_name) +:+ "_test.py"),
          "T" +:+ title_case_of file_name)
    else Err (Exn ParamsError "testcase file should have .yaml/.yml/.json suffix").
Proof.
  intros Hb Hc. pose proof (basename_no_sep path) as Hs. rewrite Hb in Hs.
  assert (Str.contains Str.sep ("T" +:+ String c rest) = false) as Hs' by exact Hs.
  unfold convert_testcase_path_in, __ensure_file_name, source_suffix.
  rewrite Hb, contains_digits, Hc.
  change (Ok (Path.join (Path.dirname path) ("T" +:+ String c rest)) ≫= ?k)
    with (k (Path.join (Path.dirname path) ("T" +:+ String c rest))).
  cbv beta. rewrite basename_join by done.
  change ("T" +:+ String c rest) with (String "T" (String c rest)).
  rewrite splitext_prefixed by done.
  destruct (splitext_root_first c rest) as [x Hx].
  destruct (Path.splitext (String c rest)) as [raw suffix]. simpl in Hx. subst raw.
  cbn [fst snd].
  destruct (suffix_allowed (Str.lower suffix)); [|done]. cbn [negb].
  rewrite dirname_join_dirname by done.
  rewrite file_name_of_prefixed, (file_name_of_digit c x Hc).
  by rewrite title_case_of_prefixed.
Qed.

End ConvertFacts.

Section ConvertTheorems.

#[local] Arguments String.append !_ _ / : simpl nomatch.
#[local] Arguments Ascii.eqb : simpl never.

Lemma convert_plain (path : string) (c : ascii) (rest : string) :
  Path.basename path = String c rest ->
  Str.is_digit c = false ->
  convert_testcase_path_in false path =
    if suffix_allowed (source_suffix path) then
      let file_name := file_name_of (fst (Path.splitext (Path.basename path))) in
      Ok (Path.join (Path.dirname path) (file_name +:+ "_test.py"),
          title_case_of file_name)
    else Err (Exn ParamsError "testcase file should have .yaml/.yml/.json suffix").
Proof.
  intros Hb Hc.
  unfold convert_testcase_path_in, __ensure_file_name, source_suffix.
  rewrite Hb, contains_digits, Hc.
  change (Ok path ≫= ?k) with (k path). cbv beta. rewrite Hb.
  destruct (Path.splitext (String c rest)) as [raw suffix]. cbn [fst snd].
  by destruct (suffix_allowed (Str.lower suffix)).
Qed.

Lemma convert_testcase_path_run (E : Env) (path : string) (st : State E) :
  convert_testcase_path E path st
  = (convert_testcase_path_in (isdir E (fs st) path) path, st).
Proof. reflexivity. Qed.

(** C6.  For a source file whose base name begins with a decimal digit,
    [convert_testcase_path] derives the pytest file and the class name
    from the base name with the letter [T] put in front of it: the file
    is named [T<file_name>_test.py], in the directory of the source, and
    the class name is [T] followed by the title-cased name. *)
Theorem convert_testcase_path_digit_prefix
    (E : Env) (st : State E) (path : string) (c : ascii) (rest : string) :
  isdir E (fs st) path = false ->
  Path.basename path = String c rest ->
  Str.is_digit c = true ->
  suffix_allowed (source_suffix path) = true ->
  convert_testcase_path E path st =
    (Ok (Path.join (Path.dirname path)
           (("T" +:+ file_name_of (fst (Path.splitext (Path.basename path))))
              +:+ "_test.py"),
         "T" +:+ title_case_of
                   (file_name_of (fst (Path.splitext (Path.basename path))))),
     st).
Proof.
  intros Hdir Hb Hc Hok.
  rewrite convert_testcase_path_run, Hdir, (convert_digit path c rest Hb Hc).
  by rewrite Hok.
Qed.

(** The example of the source: [testcases/19.json] yields a pytest file
    and a class named from [T19]. *)
Lemma convert_testcase_path_digit_prefix_witness :
  convert_testcase_path Sim.demo "testcases/19.json" (Sim.init Sim.demo Sim.no_files)
  = (Ok ("testcases/T19_test.py", "T19"), Sim.init Sim.demo Sim.no_files).
Proof.
  exact (convert_testcase_path_digit_prefix Sim.demo (Sim.init Sim.demo Sim.no_files)
           "testcases/19.json" "1"%char "9.json" eq_refl eq_refl eq_refl eq_refl).
Defined.

(** C7 as stated does not hold: a path that is not a directory and has
    an empty base name has no allowed suffix, and yet the exception is
    [IndexError], not [ParamsError]. *)
Lemma convert_testcase_path_empty_name_counterexample :
  let st := Sim.init Sim.demo Sim.no_files in
  isdir Sim.demo (fs st) "testcases/" = false
  /\ suffix_allowed (source_suffix "testcases/") = false
  /\ raises ParamsError (fst (convert_testcase_path Sim.demo "testcases/" st)) = false
  /\ raises IndexError (fst (convert_testcase_path Sim.demo "testcases/" st)) = true.
Proof. by vm_compute. Qed.

(** C7, amended.  A directory is returned unchanged with an empty class
    name.  For a path that is not a directory and has a non-empty base
    name, [convert_testcase_path] raises [ParamsError] exactly when the
    lower-cased suffix of the file is not one of [.json], [.yml],
    [.yaml], [.har], and returns normally otherwise. *)
Theorem convert_testcase_path_params_error :
  (forall (E : Env) (st : State E) (path : string),
      isdir E (fs st) path = true ->
      convert_testcase_path E path st = (Ok (path, ""), st))
  /\ (forall (E : Env) (st : State E) (path : string),
      isdir E (fs st) path = false ->
      Path.basename path <> "" ->
      (raises ParamsError (fst (convert_testcase_path E path st)) = true
       <-> suffix_allowed (source_suffix path) = false)
      /\ (suffix_allowed (source_suffix path) = true ->
          exists r, convert_testcase_path E path st = (Ok r, st))).
Proof.
  split.
  - intros E st path Hdir. by rewrite convert_testcase_path_run, Hdir.
  - intros E st path Hdir Hb. rewrite convert_testcase_path_run, Hdir.
    destruct (Path.basename path) as [|c rest] eqn:Hbase; [done|].
    destruct (Str.is_digit c) eqn:Hc.
    + rewrite (convert_digit path c rest Hbase Hc).
      destruct (suffix_allowed (source_suffix path)); simpl.
      * split; [done|]. intros _. by eexists.
      * done.
    + rewrite (convert_plain path c rest Hbase Hc).
      destruct (suffix_allowed (source_suffix path)); simpl.
      * split; [done|]. intros _. by eexists.
      * done.
Qed.

(** A text file is refused and a YAML file in upper case is accepted. *)
Lemma convert_testcase_path_params_error_witness :
  let st := Sim.init Sim.demo Sim.no_files in
  (raises ParamsError (fst (convert_testcase_path Sim.demo "cases/notes.txt" st)) = true
   <-> suffix_allowed (source_suffix "cases/notes.txt") = false)
  /\ (suffix_allowed (source_suffix "cases/LOGIN.YML") = true ->
      exists r, convert_testcase_path Sim.demo "cases/LOGIN.YML" st = (Ok r, st)).
Proof.
  split.
  - apply (proj2 convert_testcase_path_params_error Sim.demo
             (Sim.init Sim.demo Sim.no_files) "cases/notes.txt");
      [reflexivity | discriminate].
  - apply (proj2 convert_testcase_path_params_error Sim.demo
             (Sim.init Sim.demo Sim.no_files) "cases/LOGIN.YML");
      [reflexivity | discriminate].
Defined.




End ConvertTheorems.

(** ** Serialization of validators *)

Section ValidatorTheorems.

#[local] Arguments String.append !_ _ / : simpl nomatch.
#[local] Arguments Ascii.eqb : simpl never.

Lemma is_substring_chr (c : ascii) (s : string) :
  Py.is_substring (String c "") s = Str.contains c s.
Proof.
  induction s as [|a s IH]; simpl; [done|].
  rewrite Ascii.eqb_sym. destruct (Ascii.eqb a c); [by destruct s | exact IH].
Qed.

Lemma quote_check_text (check : string) :
  quote_check (VStr check) =
    Ok (if Str.contains Str.dquote check
        then sq +:+ check +:+ sq else dq +:+ check +:+ dq).
Proof.
  unfold quote_check, Dyn.contains, dq, Str.chr. rewrite is_substring_chr.
  by destruct (Str.contains Str.dquote check).
Qed.

Lemma result_bind_ok {A B : Type} (a : A) (k : A -> result B) :
  (Ok a ≫= k) = k a.
Proof. reflexivity. Qed.

Lemma result_bind_inv {A B : Type} (m : result A) (k : A -> result B) (b : B) :
  (m ≫= k) = Ok b -> exists a, m = Ok a /\ k a = Ok b.
Proof. destruct m as [a|e]; [by exists a | done]. Qed.

(** C4.  The check expression of a validator is put between single
    quotes, unchanged, when it contains a double quote and between
    double quotes otherwise; an expected value that is text is put
    between double quotes and any other expected value is written as is.
    The serialized step carries one such assertion per validator. *)
Theorem validator_quoting (E : Env) :
  (forall (v : value) (check : string) (expect assert_method : value),
      uniform_validator E v
        = Ok {| v_check := VStr check; v_expect := expect; v_assert := assert_method |} ->
      make_validator_chain_style E v =
        Ok (".assert_" +:+ Py.str assert_method +:+ "(" +:+
            (if Str.contains Str.dquote check
             then sq +:+ check +:+ sq else dq +:+ check +:+ dq) +:+ ", " +:+
            (match expect with
             | VStr text => dq +:+ text +:+ dq
             | _ => Py.repr expect
             end) +:+ ")"))
  /\ (forall (teststep : dict) (validate : list value) (step : string),
      Py.lookup "validate" teststep = Some (VList validate) ->
      make_teststep_chain_style E teststep = Ok step ->
      exists (step_info : string) (chains : list string),
        map_result (make_validator_chain_style E) validate = Ok chains
        /\ step = "Step(" +:+ (step_info +:+ ".validate()" +:+ Str.concat chains) +:+ ")").
Proof.
  split.
  - intros v check expect assert_method Hv.
    unfold make_validator_chain_style. rewrite Hv, result_bind_ok. cbn [v_check v_expect v_assert].
    rewrite quote_check_text, result_bind_ok. unfold quote_expect.
    by destruct expect.
  - intros teststep validate step Hl H.
    unfold make_teststep_chain_style in H.
    apply result_bind_inv in H as (s1 & _ & H).
    apply result_bind_inv in H as (s2 & _ & H).
    apply result_bind_inv in H as (s3 & _ & H).
    rewrite Hl in H.
    apply result_bind_inv in H as (s4 & H4 & H).
    apply result_bind_inv in H4 as (vs & Hvs & H4). injection Hvs as <-.
    apply result_bind_inv in H4 as (chains & Hc & H4).
    injection H4 as <-. injection H as <-.
    by eexists _, chains.
Qed.

(** The example of the source, a check on the user-agent entry of the
    body, and a check without a double quote against a number. *)
Lemma validator_quoting_witness :
  make_validator_chain_style Sim.demo
    (VDict [("eq", VList [VStr ("body." +:+ dq +:+ "user-agent" +:+ dq); VStr "curl"])])
  = Ok (".assert_eq('body." +:+ dq +:+ "user-agent" +:+ dq +:+ "', "
        +:+ dq +:+ "curl" +:+ dq +:+ ")")
  /\ make_validator_chain_style Sim.demo
       (VDict [("eq", VList [VStr "status_code"; VInt 200])])
     = Ok (".assert_eq(" +:+ dq +:+ "status_code" +:+ dq +:+ ", 200)").
Proof.
  split.
  - exact (proj1 (validator_quoting Sim.demo)
             (VDict [("eq", VList [VStr ("body." +:+ dq +:+ "user-agent" +:+ dq);
                                   VStr "curl"])])
             ("body." +:+ dq +:+ "user-agent" +:+ dq) (VStr "curl") (VStr "eq") eq_refl).
  - exact (proj1 (validator_quoting Sim.demo)
             (VDict [("eq", VList [VStr "status_code"; VInt 200])])
             "status_code" (VInt 200) (VStr "eq") eq_refl).
Defined.

End ValidatorTheorems.

(** ** Overrides of a testsuite *)

Section SuiteTheorems.

Lemma lookup_set (k k' : string) (v : value) (d : dict) :
  Py.lookup k (Py.set k' v d) = if String.eqb k' k then Some v else Py.lookup k d.
Proof.
  induction d as [|[k0 v0] d IH]; simpl.
  - done.
  - destruct (String.eqb_spec k0 k') as [->|Hne]; simpl.
    + by destruct (String.eqb k' k).
    + destruct (String.eqb_spec k0 k) as [->|Hne'].
      * destruct (String.eqb_spec k' k) as [->|]; done.
      * exact IH.
Qed.




End SuiteTheorems.

Section SuitePrecedence.





End SuitePrecedence.

(** ** The driver *)

Section DriverTheorems.

Lemma bind_run {E : Env} {A B : Type} (m : M E A) (k : A -> M E B) (st : State E) :
  (m ≫= k) st = match m st with
                 | (Ok a, st') => k a st'
                 | (Err e, st') => (Err e, st')
                 end.
Proof. reflexivity. Qed.

(** C10.  Given no path at all, [main_make] returns the empty list and
    leaves the state as it found it: neither set changes and nothing is
    run, written or logged, so [black] is not called. *)
Theorem main_make_empty (E : Env) (depth : nat) (st : State E) :
  main_make E depth [] st = (Ok [], st).
Proof. reflexivity. Qed.




End DriverTheorems.

(** ** The two sets *)

Section SetsFacts.
Context {E : Env}.

Lemma same_sets_refl (st : State E) : same_sets st st.
Proof. by split. Qed.

Lemma same_sets_trans (s1 s2 s3 : State E) :
  same_sets s1 s2 -> same_sets s2 s3 -> same_sets s1 s3.
Proof. intros [H1 H2] [H3 H4]. split; congruence. Qed.

Lemma bind_ok_inv {A B : Type} (m : M E A) (k : A -> M E B)
    (st st' : State E) (b : B) :
  (m ≫= k) st = (Ok b, st') ->
  exists a st1, m st = (Ok a, st1) /\ k a st1 = (Ok b, st').
Proof.
  rewrite bind_run. destruct (m st) as [[a|e] st1]; [|done].
  intros H. by exists a, st1.
Qed.

Lemma lift_inv {A : Type} (r r' : result A) (st st' : State E) :
  lift r st = (r', st') -> r' = r /\ st' = st.
Proof. unfold lift. by intros [= <- <-]. Qed.

Lemma keeps_ret {A : Type} (a : A) : keeps_sets (mret a : M E A).
Proof. intros st r st' [= <- <-]. apply same_sets_refl. Qed.


Lemma keeps_lift {A : Type} (r : result A) : keeps_sets (lift r : M E A).
Proof. intros st r' st' [= <- <-]. apply same_sets_refl. Qed.

Lemma keeps_bind {A B : Type} (m : M E A) (k : A -> M E B) :
  keeps_sets m -> (forall a, keeps_sets (k a)) -> keeps_sets (m ≫= k).
Proof.
  intros Hm Hk st r st'. rewrite bind_run.
  destruct (m st) as [[a|e] st1] eqn:H1.
  - intros H2. eapply same_sets_trans; [by eapply Hm | by eapply Hk].
  - intros [= <- <-]. by eapply Hm.
Qed.

Lemma keeps_emit (ev : event) : keeps_sets (emit ev : M E unit).
Proof. intros st r st' [= <- <-]. by split. Qed.

Lemma keeps_fs_read {A : Type} (f : FS E -> A) : keeps_sets (fs_read f).
Proof. intros st r st' [= <- <-]. apply same_sets_refl. Qed.


Lemma keeps_fs_update (ev : event) (f : FS E -> result (FS E)) :
  keeps_sets (fs_update ev f).
Proof.
  intros st r st'. unfold fs_update.
  destruct (f (fs st)); intros [= <- <-]; by split.
Qed.


Lemma keeps_ensure_absolute (path : string) : keeps_sets (__ensure_absolute E path).
Proof.
  apply keeps_bind; [apply keeps_lift|]. intros pm.
  destruct (Path.isabs path); apply keeps_ret.
Qed.

Lemma keeps_ensure_absolute_value (path : value) :
  keeps_sets (ensure_absolute_value E path).
Proof.
  apply keeps_bind; [apply keeps_lift|]. intros p. apply keeps_ensure_absolute.
Qed.

Lemma keeps_convert_testcase_path (path : string) :
  keeps_sets (convert_testcase_path E path).
Proof. apply keeps_bind; [apply keeps_fs_read|]. intros d. apply keeps_lift. Qed.

Lemma keeps_ensure_testcase_module (path : string) :
  keeps_sets (__ensure_testcase_module E path).
Proof.
  apply keeps_bind; [apply keeps_fs_read|]. intros [|]; [apply keeps_ret|].
  apply keeps_fs_update.
Qed.

Lemma keeps_make_testcase_paths (testcase : dict) (dir_path : option string) :
  keeps_sets (make_testcase_paths E testcase dir_path).
Proof.
  unfold make_testcase_paths.
  repeat (apply keeps_bind; [first [apply keeps_lift | apply keeps_ensure_absolute_value
                                    | apply keeps_emit | apply keeps_convert_testcase_path]|];
          intros ?).
  match goal with x : (string * string)%type |- _ => destruct x end. apply keeps_ret.
Qed.

Lemma keeps_make_testcase_config (testcase : dict) (testcase_path python_path : string) :
  keeps_sets (make_testcase_config E testcase testcase_path python_path).
Proof.
  unfold make_testcase_config.
  repeat (apply keeps_bind; [apply keeps_lift|]; intros ?).
  destruct (Py.is_text _); [|apply keeps_ret].
  repeat (apply keeps_bind; [apply keeps_lift|]; intros ?). apply keeps_ret.
Qed.

End SetsFacts.

Section CacheTheorems.
Context {E : Env}.

(** The last phase of [make_testcase]: what it does to the two sets. *)
Lemma make_testcase_write_sets (path content : string) (ref_flag : bool)
    (st st' : State E) (p : string) :
  make_testcase_write E path content ref_flag st = (Ok p, st') ->
  p = path
  /\ pytest_files_set st' = pytest_files_set st
  /\ make_files_cache_set st' =
       if ref_flag then make_files_cache_set st
       else ({[ __ensure_cwd_relative E path ]} ∪ make_files_cache_set st).
Proof.
  unfold make_testcase_write. intros H.
  apply bind_ok_inv in H as ([] & s1 & H1 & H).
  apply keeps_fs_update in H1 as [Hc1 Hp1].
  apply bind_ok_inv in H as ([] & s2 & H2 & H).
  apply keeps_ensure_testcase_module in H2 as [Hc2 Hp2].
  apply bind_ok_inv in H as ([] & s3 & H3 & H).
  apply keeps_emit in H3 as [Hc3 Hp3].
  apply bind_ok_inv in H as ([] & s4 & H4 & H).
  injection H as <- <-.
  destruct ref_flag; simpl in H4.
  - injection H4 as <-. split_and!; [done | congruence | congruence].
  - injection H4 as <-. simpl. split_and!; [done | congruence | congruence].
Qed.

(** C2 as stated does not hold: a testcase made with [ref_flag] set is
    put into neither set, whether by its absolute or by its relative
    path. *)
Lemma make_testcase_referenced_counterexample :
  let out := make_testcase Sim.demo 1 Sim.ping None true (Sim.init Sim.demo Sim.project) in
  fst out = Ok "/w/cases/ping_test.py"
  /\ make_files_cache_set (snd out) = ∅
  /\ pytest_files_set (snd out) = ∅.
Proof. by vm_compute. Qed.

(** C2, amended.  A call of [make_testcase] that returns either finds
    the path of its pytest file in [make_files_cache_set] and changes
    neither set, or makes the file; in that case, once the loop over
    the reference steps is done, it leaves [pytest_files_set] alone and
    adds to [make_files_cache_set] the path of the pytest file relative
    to the working directory when [ref_flag] is not set, and nothing
    when [ref_flag] is set. *)
Theorem make_testcase_cache_effect
    (depth : nat) (testcase : dict) (dir_path : option string) (ref_flag : bool)
    (st st' : State E) (p : string) :
  make_testcase E (S depth) testcase dir_path ref_flag st = (Ok p, st') ->
  (p ∈ make_files_cache_set st /\ same_sets st st')
  \/ ((p ∉ make_files_cache_set st)
      /\ exists (teststeps : list value) (imports_list : list string)
                (steps : list dict) (st0 st1 : State E),
           same_sets st st0
           /\ make_testcase_refs E (__make E depth) teststeps st0
              = (Ok (imports_list, steps), st1)
           /\ pytest_files_set st' = pytest_files_set st1
           /\ make_files_cache_set st' =
                if ref_flag then make_files_cache_set st1
                else ({[ __ensure_cwd_relative E p ]} ∪ make_files_cache_set st1)).
Proof.
  intros H. cbn [make_testcase] in H. unfold make_testcase_with in H.
  apply bind_ok_inv in H as ([[[testcase' testcase_path] python_path] cls] & s0 & Hpaths & H).
  apply keeps_make_testcase_paths in Hpaths as Hs0.
  apply bind_ok_inv in H as (cached & s0' & Hmem & H).
  injection Hmem as <- <-.
  destruct (bool_decide (python_path ∈ make_files_cache_set s0)) eqn:Hcached.
  - injection H as <- <-. left. apply bool_decide_eq_true in Hcached.
    destruct Hs0 as [Hc Hp]. split; [by rewrite <-Hc | by split].
  - right. apply bool_decide_eq_false in Hcached.
    unfold make_testcase_generate in H.
    apply bind_ok_inv in H as (config & sc & Hconfig & H).
    apply keeps_make_testcase_config in Hconfig as Hsc.
    apply bind_ok_inv in H as (teststeps_v & s2 & H2 & H).
    apply lift_inv in H2 as [_ ->].
    apply bind_ok_inv in H as (teststeps & s3 & H3 & H).
    apply lift_inv in H3 as [_ ->].
    apply bind_ok_inv in H as ([imports_list steps] & s1 & Hrefs & H).
    apply bind_ok_inv in H as (content & s4 & H4 & H).
    apply lift_inv in H4 as [_ ->].
    apply make_testcase_write_sets in H as (-> & Hp & Hc).
    split.
    + destruct Hs0 as [Hc0 _]. by rewrite <-Hc0.
    + exists teststeps, imports_list, steps, sc, s1.
      split_and!; [by eapply same_sets_trans | exact Hrefs | exact Hp | exact Hc].
Qed.

(** The loop over the reference steps does nothing at all when no step
    names a testcase. *)
Lemma make_testcase_refs_plain (make : string -> bool -> M E unit)
    (teststeps : list value) (st st' : State E)
    (r : result (list string * list dict)) :
  forallb plain_step teststeps = true ->
  make_testcase_refs E make teststeps st = (r, st') -> st' = st.
Proof.
  revert r. induction teststeps as [|teststep rest IH]; intros r Hplain.
  - by intros [= <- <-].
  - cbn [forallb] in Hplain. apply andb_true_iff in Hplain as [Hstep Hrest].
    cbn [make_testcase_refs]. rewrite bind_run.
    destruct teststep as [| | | | |d]; cbn [Dyn.as_dict lift];
      try (by intros [= <- <-]).
    cbn [plain_step] in Hstep. rewrite Hstep. rewrite bind_run.
    destruct (make_testcase_refs E make rest st) as [[[imports steps]|e] s1] eqn:Hr.
    + intros [= <- <-]. by eapply IH.
    + intros [= <- <-]. by eapply IH.
Qed.

End CacheTheorems.

(** A referenced testcase without reference steps of its own: the run of
    [make_testcase] with [ref_flag] set leaves both sets empty. *)
Lemma make_testcase_cache_effect_witness :
  let st := Sim.init Sim.demo Sim.project in
  let st' := snd (make_testcase Sim.demo 1 Sim.ping None true st) in
  ("/w/cases/ping_test.py" ∈ make_files_cache_set st /\ same_sets st st')
  \/ (("/w/cases/ping_test.py" ∉ make_files_cache_set st)
      /\ exists (teststeps : list value) (imports_list : list string)
                (steps : list dict) (st0 st1 : State Sim.demo),
           same_sets st st0
           /\ make_testcase_refs Sim.demo (__make Sim.demo 0) teststeps st0
              = (Ok (imports_list, steps), st1)
           /\ pytest_files_set st' = pytest_files_set st1
           /\ make_files_cache_set st' =
                if true then make_files_cache_set st1
                else ({[ __ensure_cwd_relative Sim.demo "/w/cases/ping_test.py" ]}
                      ∪ make_files_cache_set st1)).
Proof.
  apply (make_testcase_cache_effect 0 Sim.ping None true
           (Sim.init Sim.demo Sim.project)
           (snd (make_testcase Sim.demo 1 Sim.ping None true
                   (Sim.init Sim.demo Sim.project)))
           "/w/cases/ping_test.py").
  by vm_compute.
Defined.

(** ** Malformed teststeps *)

Section FormatErrorTheorems.




End FormatErrorTheorems.


(** ** The cache across two calls *)

(** C1 on a concrete run: the same testcase is made twice in a row, not
    as a reference.  The first call puts the path relative to the
    working directory into [make_files_cache_set]; the second call looks
    for the absolute path, does not find it, and writes the pytest file
    a second time. *)
Lemma make_testcase_twice_writes_twice :
  let st := Sim.init Sim.demo Sim.project in
  let first := make_testcase Sim.demo 1 Sim.ping None false st in
  let second := make_testcase Sim.demo 1 Sim.ping None false (snd first) in
  fst first = Ok "/w/cases/ping_test.py"
  /\ fst second = Ok "/w/cases/ping_test.py"
  /\ make_files_cache_set (snd first) = {[ "cases/ping_test.py" ]}
  /\ bool_decide ("/w/cases/ping_test.py" ∈ make_files_cache_set (snd first)) = false
  /\ Sim.writes_to "/w/cases/ping_test.py" (trace (snd first)) = 1
  /\ Sim.writes_to "/w/cases/ping_test.py" (trace (snd second)) = 2.
Proof. by vm_compute. Qed.

(** * Further properties of the module *)

(** ** Paths *)

Section PathExtras.

#[local] Arguments String.append !_ _ / : simpl nomatch.
#[local] Arguments Ascii.eqb : simpl never.

Lemma contains_take (c : ascii) (n : nat) (s : string) :
  Str.contains c s = false -> Str.contains c (Str.take n s) = false.
Proof.
  revert s; induction n as [|n IH]; intros [|a s]; simpl; try done.
  destruct (Ascii.eqb a c); [done | apply IH].
Qed.

Lemma contains_replace_other (c a b : ascii) (s : string) :
  b <> c -> Str.contains c s = false -> Str.contains c (Str.replace a b s) = false.
Proof.
  intros Hb. unfold Str.replace. induction s as [|x s IH]; simpl; [done|].
  destruct (Ascii.eqb_spec x c) as [->|Hx]; [done|]. intros Hs.
  destruct (Ascii.eqb x a).
  - apply Ascii.eqb_neq in Hb. rewrite Hb. by apply IH.
  - apply Ascii.eqb_neq in Hx. rewrite Hx. by apply IH.
Qed.

Lemma contains_replace_same (a b : ascii) (s : string) :
  b <> a -> Str.contains a (Str.replace a b s) = false.
Proof.
  intros Hb. unfold Str.replace. induction s as [|x s IH]; simpl; [done|].
  destruct (Ascii.eqb_spec x a) as [->|Hx].
  - apply Ascii.eqb_neq in Hb. by rewrite Hb.
  - apply Ascii.eqb_neq in Hx. by rewrite Hx.
Qed.

Lemma contains_remove (a : ascii) (s : string) :
  Str.contains a (Str.remove a s) = false.
Proof.
  induction s as [|x s IH]; simpl; [done|].
  destruct (Ascii.eqb x a) eqn:Hx; [done|]. simpl. by rewrite Hx.
Qed.

Lemma contains_remove_other (c a : ascii) (s : string) :
  Str.contains c s = false -> Str.contains c (Str.remove a s) = false.
Proof.
  induction s as [|x s IH]; simpl; [done|].
  destruct (Ascii.eqb x c) eqn:Hx; [done|]. intros Hs.
  destruct (Ascii.eqb x a); [by apply IH|]. simpl. rewrite Hx. by apply IH.
Qed.

(** [title] only changes letters. *)
Lemma case_change_letter (x : ascii) :
  (Str.is_lower x = true -> Str.is_upper (Str.to_upper x) = true)
  /\ (Str.is_upper x = true -> Str.is_lower (Str.to_lower x) = true).
Proof. destruct x as [[] [] [] [] [] [] [] []]; by vm_compute. Qed.

Lemma contains_title_from (c : ascii) (b : bool) (s : string) :
  Str.is_lower c = false -> Str.is_upper c = false ->
  Str.contains c s = false -> Str.contains c (Str.title_from b s) = false.
Proof.
  intros Hl Hu. revert b. induction s as [|x s IH]; intros b; simpl; [done|].
  destruct (Ascii.eqb_spec x c) as [->|Hx]; [done|]. intros Hs.
  apply Ascii.eqb_neq in Hx.
  destruct (Str.is_lower x) eqn:Hxl; [|destruct (Str.is_upper x) eqn:Hxu].
  - simpl. destruct b.
    + rewrite Hx. by apply IH.
    + destruct (Ascii.eqb_spec (Str.to_upper x) c) as [Heq|_]; [|by apply IH].
      apply case_change_letter in Hxl. congruence.
  - simpl. destruct b.
    + destruct (Ascii.eqb_spec (Str.to_lower x) c) as [Heq|_]; [|by apply IH].
      apply case_change_letter in Hxu. congruence.
    + rewrite Hx. by apply IH.
  - simpl. rewrite Hx. by apply IH.
Qed.

Lemma lower_append (x y : string) : Str.lower (x +:+ y) = Str.lower x +:+ Str.lower y.
Proof. unfold Str.lower. induction x as [|a x IH]; simpl; [done | by rewrite IH]. Qed.

Lemma endswith_append_self (p x : string) : Str.endswith p (x +:+ p) = true.
Proof.
  unfold Str.endswith. rewrite length_append.
  replace (Str.length x + Str.length p - Str.length p) with (Str.length x) by lia.
  rewrite drop_append_length, String.eqb_refl. simpl.
  apply Nat.leb_le. lia.
Qed.

Lemma isabs_join (a b : string) : Path.isabs a = true -> Path.isabs (Path.join a b) = true.
Proof.
  unfold Path.isabs, Path.join. intros Ha.
  destruct (Str.startswith "/" b) eqn:Hb; [done|].
  destruct a as [|c a]; [done|].
  by destruct (_ || _).
Qed.

(** The file name of line 120 has no space, dot or hyphen, and no
    separator when the raw name has none. *)
Lemma file_name_of_clean (raw : string) :
  Str.contains " " (file_name_of raw) = false
  /\ Str.contains "." (file_name_of raw) = false
  /\ Str.contains "-" (file_name_of raw) = false
  /\ (Str.contains Str.sep raw = false -> Str.contains Str.sep (file_name_of raw) = false).
Proof.
  unfold file_name_of. split_and!.
  - do 2 (apply contains_replace_other; [done|]). by apply contains_replace_same.
  - apply contains_replace_other; [done|]. by apply contains_replace_same.
  - by apply contains_replace_same.
  - intros H. by do 3 (apply contains_replace_other; [done|]).
Qed.

Lemma splitext_root_no_sep (b : string) :
  Str.contains Str.sep b = false -> Str.contains Str.sep (fst (Path.splitext b)) = false.
Proof.
  intros H. unfold Path.splitext.
  destruct (Str.rfind Str.dot b) as [i|]; [|done].
  destruct (_ && _); [|done]. by apply contains_take.
Qed.

(** What [convert_testcase_path] returns for a file: the name of the
    pytest file is the cleaned root of the base name, with [T] in front
    when that starts with a digit, followed by [_test.py]. *)
Lemma convert_names (path python_path cls : string) :
  convert_testcase_path_in false path = Ok (python_path, cls) ->
  exists name : string,
    python_path = Path.join (Path.dirname path) (name +:+ "_test.py")
    /\ cls = title_case_of name
    /\ Str.contains Str.sep name = false
    /\ Str.contains " " name = false
    /\ Str.contains "." name = false
    /\ Str.contains "-" name = false
    /\ (exists c r, name = String c r /\ Str.is_digit c = false).
Proof.
  intros H.
  destruct (Path.basename path) as [|c rest] eqn:Hb.
  { unfold convert_testcase_path_in, __ensure_file_name in H. by rewrite Hb in H. }
  pose proof (basename_no_sep path) as Hsep. rewrite Hb in Hsep.
  apply splitext_root_no_sep in Hsep as Hroot.
  destruct (splitext_root_first c rest) as [x Hx].
  destruct (file_name_of_clean (fst (Path.splitext (String c rest))))
    as (H1 & H2 & H3 & H4). specialize (H4 Hroot).
  destruct (Str.is_digit c) eqn:Hc.
  - rewrite (convert_digit path c rest Hb Hc) in H.
    destruct (suffix_allowed (source_suffix path)); [|done].
    cbv zeta in H. rewrite Hb in H. injection H as <- <-.
    exists ("T" +:+ file_name_of (fst (Path.splitext (String c rest)))).
    split_and!; try done.
    + rewrite Hx, (file_name_of_digit c x Hc). simpl.
      by rewrite title_case_of_prefixed.
    + by eexists _, _.
  - rewrite (convert_plain path c rest Hb Hc) in H.
    destruct (suffix_allowed (source_suffix path)); [|done].
    cbv zeta in H. rewrite Hb in H. injection H as <- <-.
    exists (file_name_of (fst (Path.splitext (String c rest)))).
    split_and!; try done.
    rewrite Hx. unfold file_name_of, Str.replace. simpl.
    eexists _, _. split; [done|].
    repeat match goal with |- context [Ascii.eqb ?a ?b] =>
      destruct (Ascii.eqb_spec a b) as [->|_] end; done.
Qed.

End PathExtras.

Section PathExtraTheorems.

#[local] Arguments String.append !_ _ / : simpl nomatch.
#[local] Arguments Ascii.eqb : simpl never.

(** X1.  [__ensure_file_name] fails exactly on an empty base name.  The
    path it returns has a base name that does not start with a digit,
    lies in the same directory, and is either the path given or the
    path whose base name has [T] put in front. *)
Theorem ensure_file_name_no_digit (path : string) :
  (Path.basename path = "" <-> raises IndexError (__ensure_file_name path) = true)
  /\ (forall r : string,
        __ensure_file_name path = Ok r ->
        (exists c rest, Path.basename r = String c rest /\ Str.is_digit c = false)
        /\ Path.dirname r = Path.dirname path
        /\ (r = path \/ Path.basename r = "T" +:+ Path.basename path)).
Proof.
  unfold __ensure_file_name.
  destruct (Path.basename path) as [|c rest] eqn:Hb.
  - split; [done|]. intros r H. discriminate H.
  - split.
    { split; [done|]. rewrite contains_digits. by destruct (Str.is_digit c). }
    intros r. rewrite contains_digits.
    pose proof (basename_no_sep path) as Hsep. rewrite Hb in Hsep.
    assert (Str.contains Str.sep ("T" +:+ String c rest) = false) as Hsep' by exact Hsep.
    destruct (Str.is_digit c) eqn:Hc; intros [= <-].
    + rewrite basename_join, dirname_join_dirname by done.
      split_and!; [by eexists _, _ | done | by right].
    + rewrite Hb. split_and!; [by eexists _, _ | done | by left].
Qed.

Lemma ensure_file_name_no_digit_witness :
  (exists c rest, Path.basename "testcases/T19.json" = String c rest
                  /\ Str.is_digit c = false)
  /\ Path.dirname "testcases/T19.json" = Path.dirname "testcases/19.json"
  /\ ("testcases/T19.json" = "testcases/19.json"
      \/ Path.basename "testcases/T19.json" = "T" +:+ Path.basename "testcases/19.json").
Proof.
  exact (proj2 (ensure_file_name_no_digit "testcases/19.json")
           "testcases/T19.json" eq_refl).
Defined.

(** X2.  The pytest file that [convert_testcase_path] names for a source
    file lies in the directory of the source file, its name ends with
    [_test.py], and the part of the name before that ending has no
    space, dot or hyphen. *)
Theorem pytest_file_location (E : Env) (st st' : State E) (path python_path cls : string) :
  isdir E (fs st) path = false ->
  convert_testcase_path E path st = (Ok (python_path, cls), st') ->
  Path.dirname python_path = Path.dirname path
  /\ exists name : string,
       Path.basename python_path = name +:+ "_test.py"
       /\ Str.contains " " name = false
       /\ Str.contains "." name = false
       /\ Str.contains "-" name = false.
Proof.
  intros Hdir. rewrite convert_testcase_path_run, Hdir. intros [= H <-].
  apply convert_names in H as (name & -> & _ & Hsep & H1 & H2 & H3 & _).
  assert (Str.contains Str.sep (name +:+ "_test.py") = false) as Hs.
  { rewrite contains_append, Hsep. reflexivity. }
  rewrite dirname_join_dirname, basename_join by done.
  split; [done|]. by exists name.
Qed.

Lemma pytest_file_location_witness :
  Path.dirname "/w/cases/log in-v1.2.yml" = "/w/cases"
  /\ exists name : string,
       Path.basename "/w/cases/log_in_v1_2_test.py" = name +:+ "_test.py"
       /\ Str.contains " " name = false
       /\ Str.contains "." name = false
       /\ Str.contains "-" name = false.
Proof.
  exact (pytest_file_location Sim.demo (Sim.init Sim.demo Sim.no_files)
           (Sim.init Sim.demo Sim.no_files) "/w/cases/log in-v1.2.yml"
           "/w/cases/log_in_v1_2_test.py" "LogInV12" eq_refl eq_refl).
Defined.

(** X3.  The class name that [convert_testcase_path] derives for a
    source file has no space, dot, hyphen or underscore. *)
Theorem class_name_clean (E : Env) (st st' : State E) (path python_path cls : string) :
  isdir E (fs st) path = false ->
  convert_testcase_path E path st = (Ok (python_path, cls), st') ->
  Str.contains " " cls = false /\ Str.contains "." cls = false
  /\ Str.contains "-" cls = false /\ Str.contains "_" cls = false.
Proof.
  intros Hdir. rewrite convert_testcase_path_run, Hdir. intros [= H <-].
  apply convert_names in H as (name & _ & -> & _ & H1 & H2 & H3 & _).
  unfold title_case_of, Str.title. split_and!.
  - apply contains_remove_other. by apply contains_title_from.
  - apply contains_remove_other. by apply contains_title_from.
  - apply contains_remove_other. by apply contains_title_from.
  - apply contains_remove.
Qed.

Lemma class_name_clean_witness :
  Str.contains " " "LogInV12" = false /\ Str.contains "." "LogInV12" = false
  /\ Str.contains "-" "LogInV12" = false /\ Str.contains "_" "LogInV12" = false.
Proof.
  exact (class_name_clean Sim.demo (Sim.init Sim.demo Sim.no_files)
           (Sim.init Sim.demo Sim.no_files) "/w/cases/log in-v1.2.yml"
           "/w/cases/log_in_v1_2_test.py" "LogInV12" eq_refl eq_refl).
Defined.

Lemma splitext_pytest_name (c : ascii) (r : string) :
  Str.contains Str.sep (String c r) = false ->
  Str.contains "." (String c r) = false ->
  Path.splitext (String c r +:+ "_test.py") = (String c r +:+ "_test", ".py").
Proof.
  intros Hsep Hdot. unfold Path.splitext.
  assert (String c r +:+ "_test.py" = (String c r +:+ "_test") +:+ String "." "py") as Heq.
  { by rewrite append_assoc. }
  rewrite Heq. unfold Str.dot. rewrite rfind_append by done.
  rewrite rfind1_absent.
  2:{ rewrite contains_append, contains_append, Hsep. reflexivity. }
  rewrite take_append_length, drop_append_length.
  rewrite length_append. cbn [Str.length]. rewrite Nat.sub_0_r.
  replace (S (Str.length r) + 5) with (S (Str.length r + 5)) by lia.
  cbn [Path.splitext_scan Nat.leb]. unfold Str.at1. simpl.
  simpl in Hdot. by destruct (Ascii.eqb c ".").
Qed.

(** X4.  A path that [convert_testcase_path] has produced is not a
    source file: converting it raises [ParamsError]. *)
Theorem convert_pytest_file_refused (E : Env) (st st' s : State E)
    (path python_path cls : string) :
  isdir E (fs st) path = false ->
  convert_testcase_path E path st = (Ok (python_path, cls), st') ->
  isdir E (fs s) python_path = false ->
  convert_testcase_path E python_path s
  = (Err (Exn ParamsError "testcase file should have .yaml/.yml/.json suffix"), s).
Proof.
  intros Hdir. rewrite convert_testcase_path_run, Hdir. intros [= H <-] Hdir'.
  apply convert_names in H as (name & -> & _ & Hsep & _ & Hdot & _ & c & r & -> & Hc).
  assert (Str.contains Str.sep (String c r +:+ "_test.py") = false) as Hs.
  { rewrite contains_append, Hsep. reflexivity. }
  rewrite convert_testcase_path_run, Hdir'.
  rewrite (convert_plain _ c (r +:+ "_test.py")); [|by rewrite basename_join|done].
  unfold source_suffix. rewrite basename_join by done.
  by rewrite splitext_pytest_name.
Qed.

Lemma convert_pytest_file_refused_witness :
  convert_testcase_path Sim.demo "/w/cases/ping_test.py" (Sim.init Sim.demo Sim.project)
  = (Err (Exn ParamsError "testcase file should have .yaml/.yml/.json suffix"),
     Sim.init Sim.demo Sim.project).
Proof.
  exact (convert_pytest_file_refused Sim.demo (Sim.init Sim.demo Sim.project)
           (Sim.init Sim.demo Sim.project) (Sim.init Sim.demo Sim.project)
           "/w/cases/ping.yml" "/w/cases/ping_test.py" "Ping" eq_refl eq_refl eq_refl).
Defined.

(** X5.  When the project directory is absolute, [__ensure_absolute]
    returns an absolute path and changes nothing; a path that is
    absolute already is returned as it is. *)
Theorem ensure_absolute_is_absolute (E : Env) (path : string)
    (project_meta : ProjectMeta (Functions E)) (st : State E) :
  load_project_meta E path = Ok project_meta ->
  Path.isabs (PWD project_meta) = true ->
  exists r : string,
    __ensure_absolute E path st = (Ok r, st)
    /\ Path.isabs r = true
    /\ (Path.isabs path = true -> r = path).
Proof.
  intros Hpm Habs. unfold __ensure_absolute. rewrite bind_run.
  unfold lift. rewrite Hpm.
  destruct (Path.isabs path) eqn:Hp.
  - by exists path.
  - exists (Path.join (PWD project_meta) path). split_and!; [done | | done].
    by apply isabs_join.
Qed.

Lemma ensure_absolute_is_absolute_witness :
  exists r : string,
    __ensure_absolute Sim.demo "cases/ping.yml" (Sim.init Sim.demo Sim.project)
    = (Ok r, Sim.init Sim.demo Sim.project)
    /\ Path.isabs r = true
    /\ (Path.isabs "cases/ping.yml" = true -> r = "cases/ping.yml").
Proof.
  exact (ensure_absolute_is_absolute Sim.demo "cases/ping.yml"
           {| PWD := "/w"; functions := tt |} (Sim.init Sim.demo Sim.project)
           eq_refl eq_refl).
Defined.

(** X6.  A relative path joined to the working directory, as [main_make]
    and [__ensure_absolute] do, is given back by [__ensure_cwd_relative],
    provided the working directory is absolute and does not end with a
    separator. *)
Theorem cwd_relative_of_joined (E : Env) (path : string) :
  Path.isabs (getcwd E) = true ->
  Str.endswith "/" (getcwd E) = false ->
  Path.isabs path = false ->
  __ensure_cwd_relative E (Path.join (getcwd E) path) = path.
Proof.
  intros Habs Hend Hrel. unfold __ensure_cwd_relative.
  rewrite isabs_join by done.
  unfold Path.join. unfold Path.isabs in Hrel. rewrite Hrel, Hend.
  destruct (String.eqb_spec (getcwd E) "") as [Heq|_].
  { by rewrite Heq in Habs. }
  simpl. change (String "/" path) with ("/" +:+ path). rewrite <-append_assoc.
  replace (Str.length (getcwd E) + 1) with (Str.length (getcwd E +:+ "/"))
    by (rewrite length_append; reflexivity).
  apply drop_append_length.
Qed.

Lemma cwd_relative_of_joined_witness :
  __ensure_cwd_relative Sim.demo (Path.join (getcwd Sim.demo) "cases/ping.yml")
  = "cases/ping.yml".
Proof.
  exact (cwd_relative_of_joined Sim.demo "cases/ping.yml" eq_refl eq_refl eq_refl).
Defined.

End PathExtraTheorems.

(** ** The two sets only grow *)

Section GrowFacts.
Context {E : Env}.






Lemma keeps_try_except {A : Type} (m : M E A) (classes : list exn_class)
    (h : exn -> M E A) :
  keeps_sets m -> (forall e, keeps_sets (h e)) -> keeps_sets (try_except m classes h).
Proof.
  intros Hm Hh st r st'. unfold try_except.
  destruct (m st) as [[a|e] st1] eqn:H1.
  - intros [= <- <-]. by eapply Hm.
  - destruct (existsb _ classes).
    + intros H2. eapply same_sets_trans; [by eapply Hm | by eapply Hh].
    + intros [= <- <-]. by eapply Hm.
Qed.




Lemma keeps_run_subprocess (args : list string) : keeps_sets (run_subprocess E args).
Proof.
  intros st r st'. unfold run_subprocess.
  destruct (subprocess_run E args (fs st)). intros [= <- <-]. by split.
Qed.

Lemma keeps_format_pytest_with_black (python_paths : list string) :
  keeps_sets (format_pytest_with_black E python_paths).
Proof.
  apply keeps_bind; [apply keeps_emit|]. intros _.
  apply keeps_try_except; [apply keeps_run_subprocess|]. intros ex.
  apply keeps_bind; [apply keeps_emit|]. intros _. apply keeps_emit.
Qed.








End GrowFacts.

Section GrowTheorems.
Context {E : Env}.


End GrowTheorems.


(** ** What a run leaves behind *)

Section StateFacts.
Context {E : Env}.

Lemma leaves_ret {A : Type} (a : A) : leaves_state (mret a : M E A).
Proof. by intros st r st' [= <- <-]. Qed.

Lemma leaves_lift {A : Type} (r : result A) : leaves_state (lift r : M E A).
Proof. by intros st r' st' [= <- <-]. Qed.

Lemma leaves_fs_read {A : Type} (f : FS E -> A) : leaves_state (fs_read f).
Proof. by intros st r st' [= <- <-]. Qed.

Lemma leaves_bind {A B : Type} (m : M E A) (k : A -> M E B) :
  leaves_state m -> (forall a, leaves_state (k a)) -> leaves_state (m ≫= k).
Proof.
  intros Hm Hk st r st'. rewrite bind_run.
  destruct (m st) as [[a|e] st1] eqn:H1.
  - intros H2. apply Hm in H1 as ->. by apply Hk in H2.
  - intros [= <- <-]. by apply Hm in H1.
Qed.

Lemma leaves_ensure_absolute_value (path : value) :
  leaves_state (ensure_absolute_value E path).
Proof.
  apply leaves_bind; [apply leaves_lift|]. intros p.
  apply leaves_bind; [apply leaves_lift|]. intros pm.
  destruct (Path.isabs p); apply leaves_ret.
Qed.

Lemma leaves_convert_testcase_path (path : string) :
  leaves_state (convert_testcase_path E path).
Proof. apply leaves_bind; [apply leaves_fs_read|]. intros d. apply leaves_lift. Qed.

(** Lines 259-271 do nothing but log the path of the source. *)
Lemma make_testcase_paths_state (testcase : dict) (dir_path : option string)
    (st s0 : State E) (testcase' : dict) (testcase_path python_path cls : string) :
  make_testcase_paths E testcase dir_path st
    = (Ok (testcase', testcase_path, python_path, cls), s0) ->
  s0 = logged (EvLog "INFO" ("start to make testcase: " +:+ testcase_path)) st.
Proof.
  unfold make_testcase_paths. intros H.
  apply bind_ok_inv in H as (tc & s1 & H1 & H). apply leaves_lift in H1 as ->.
  apply bind_ok_inv in H as ([] & s1 & H1 & H). apply leaves_lift in H1 as ->.
  apply bind_ok_inv in H as (config & s1 & H1 & H). apply leaves_lift in H1 as ->.
  apply bind_ok_inv in H as (path & s1 & H1 & H). apply leaves_lift in H1 as ->.
  apply bind_ok_inv in H as (tp & s1 & H1 & H).
  apply leaves_ensure_absolute_value in H1 as ->.
  apply bind_ok_inv in H as ([] & s1 & H1 & H). injection H1 as <-.
  apply bind_ok_inv in H as ([py c] & s2 & H2 & H).
  apply leaves_convert_testcase_path in H2 as ->.
  by injection H as <- <- <- <- <-.
Qed.

End StateFacts.

Section RunTheorems.
Context {E : Env}.

(** X8.  When [main_make] is given at least one path and returns, the
    list it returns is the content of [pytest_files_set], without
    repetition, and [pytest_files_set] holds all of
    [make_files_cache_set]. *)
Theorem main_make_returns_pytest_files (depth : nat) (tests_paths : list string)
    (st st' : State E) (pytest_files_list : list string) :
  tests_paths <> [] ->
  main_make E depth tests_paths st = (Ok pytest_files_list, st') ->
  pytest_files_list = elements (pytest_files_set st')
  /\ NoDup pytest_files_list
  /\ make_files_cache_set st' ⊆ pytest_files_set st'.
Proof.
  intros Hne H. destruct tests_paths as [|p l]; [done|]. unfold main_make in H.
  apply bind_ok_inv in H as (files & s1 & Hcollect & H).
  apply bind_ok_inv in H as ([] & s2 & Hformat & H). injection H as <- <-.
  apply keeps_format_pytest_with_black in Hformat as [Hc Hp].
  unfold main_make_collect in Hcollect.
  apply bind_ok_inv in Hcollect as ([] & sa & _ & Hcollect).
  apply bind_ok_inv in Hcollect as ([] & sb & Hupdate & Hlist).
  injection Hupdate as <-. injection Hlist as <- <-.
  rewrite Hc, Hp. cbn [pytest_files_set make_files_cache_set].
  split_and!; [done | apply NoDup_elements | apply union_subseteq_r].
Qed.

(** X9.  A call of [make_testcase] for a pytest file whose path is in
    [make_files_cache_set] returns that path at once: it logs the path
    of the source and does nothing else, so that no file is written and
    no referenced testcase is made. *)
Theorem make_testcase_cache_hit (depth : nat) (testcase testcase' : dict)
    (dir_path : option string) (ref_flag : bool) (st s0 : State E)
    (testcase_path python_path cls : string) :
  make_testcase_paths E testcase dir_path st
    = (Ok (testcase', testcase_path, python_path, cls), s0) ->
  python_path ∈ make_files_cache_set st ->
  make_testcase E (S depth) testcase dir_path ref_flag st
  = (Ok python_path,
     logged (EvLog "INFO" ("start to make testcase: " +:+ testcase_path)) st).
Proof.
  intros Hpaths Hin. apply make_testcase_paths_state in Hpaths as Hs0.
  cbn [make_testcase]. unfold make_testcase_with.
  rewrite bind_run, Hpaths, bind_run. cbn [cache_mem]. subst s0.
  cbn [logged make_files_cache_set]. by rewrite (bool_decide_eq_true_2 _ Hin).
Qed.

End RunTheorems.

Lemma main_make_returns_pytest_files_witness :
  let out := main_make Sim.demo 1 ["cases"] (Sim.init Sim.demo Sim.folder) in
  ["cases/ping_test.py"] = elements (pytest_files_set (snd out))
  /\ NoDup ["cases/ping_test.py"]
  /\ make_files_cache_set (snd out) ⊆ pytest_files_set (snd out).
Proof.
  apply (main_make_returns_pytest_files (E := Sim.demo) 1 ["cases"] (Sim.init Sim.demo Sim.folder)).
  - discriminate.
  - by vm_compute.
Defined.

Lemma make_testcase_cache_hit_witness :
  let st : State Sim.demo :=
    Build_State Sim.demo Sim.project {[ "/w/cases/ping_test.py" ]} ∅ [] in
  make_testcase Sim.demo 1 Sim.ping None false st
  = (Ok "/w/cases/ping_test.py",
     logged (EvLog "INFO" "start to make testcase: /w/cases/ping.yml") st).
Proof.
  intros st.
  apply (make_testcase_cache_hit (E := Sim.demo) 0 Sim.ping Sim.ping None false st
           (snd (make_testcase_paths Sim.demo Sim.ping None st))
           "/w/cases/ping.yml" "/w/cases/ping_test.py" "Ping").
  - reflexivity.
  - apply elem_of_singleton_2. reflexivity.
Defined.

(** ** The loops *)

Section LoopTheorems.
Context {E : Env}.


(** X11.  A file that the loader cannot read, raising [FileNotFound] or
    [FileFormatError], costs a warning and nothing more: the loop of
    [__make] goes on with the files that remain. *)
Theorem unreadable_file_skipped
    (make_tc : dict -> option string -> bool -> M E string) (ref_flag : bool)
    (test_file : string) (rest : list string) (st : State E) (ex : exn) :
  Str.endswith "_test.py" (Str.lower test_file) = false ->
  load_test_file E test_file (fs st) = Err ex ->
  exn_cls ex = FileNotFound \/ exn_cls ex = FileFormatError ->
  for_each (make_file E make_tc ref_flag) (test_file :: rest) st
  = for_each (make_file E make_tc ref_flag) rest
      (logged (EvLog "WARNING" (exn_msg ex)) st).
Proof.
  intros Hname Hload Hcls. cbn [for_each]. rewrite bind_run.
  unfold make_file at 1. rewrite Hname, bind_run.
  unfold try_except at 1. rewrite bind_run. unfold fs_load at 1. rewrite Hload.
  by destruct Hcls as [-> | ->].
Qed.

(** X12.  [__make] catches [TestCaseFormatError] only: any other
    exception of [make_testcase], such as the [KeyError] of a teststep
    without a name, ends the loop, and the files that remain are not
    looked at. *)
Theorem other_error_ends_loop (depth : nat) (ref_flag : bool)
    (test_file : string) (rest : list string) (test_content : value)
    (testcase : dict) (st st1 : State E) (ex : exn) :
  Str.endswith "_test.py" (Str.lower test_file) = false ->
  load_test_file E test_file (fs st) = Ok test_content ->
  prepare_test_content E test_file test_content = Ok testcase ->
  Py.has "teststeps" testcase = true ->
  make_testcase E depth testcase None ref_flag st = (Err ex, st1) ->
  exn_cls ex <> TestCaseFormatError ->
  for_each (make_file E (make_testcase E depth) ref_flag) (test_file :: rest) st
  = (Err ex, st1).
Proof.
  intros Hname Hload Hprepare Hsteps Hmake Hcls.
  cbn [for_each]. rewrite bind_run. unfold make_file at 1. rewrite Hname.
  rewrite bind_run. unfold try_except at 1. rewrite bind_run.
  unfold fs_load at 1. rewrite Hload. cbn [mret M_ret ret].
  unfold lift at 1. rewrite bind_run, Hprepare, Hsteps.
  unfold try_except. rewrite bind_run, Hmake. cbn [existsb].
  by destruct (exn_cls ex).
Qed.

(** X13.  A path that is neither a directory nor a file makes [__make]
    raise [TestcaseNotFound] at once.  [main_make] does not catch it:
    with such a path first in its list it raises without having
    changed anything, and [black] is not run. *)
Theorem missing_path_not_found (depth : nat) (tests_path : string)
    (rest : list string) (ref_flag : bool) (st : State E) :
  (isdir E (fs st) tests_path = false -> isfile E (fs st) tests_path = false ->
   __make E depth tests_path ref_flag st
   = (Err (Exn TestcaseNotFound ("Invalid tests path: " +:+ tests_path)), st))
  /\ (isdir E (fs st) (tests_path_absolute E tests_path) = false ->
      isfile E (fs st) (tests_path_absolute E tests_path) = false ->
      main_make E depth (tests_path :: rest) st
      = (Err (Exn TestcaseNotFound
                ("Invalid tests path: " +:+ tests_path_absolute E tests_path)), st)).
Proof.
  assert (forall p flag, isdir E (fs st) p = false -> isfile E (fs st) p = false ->
            __make E depth p flag st
            = (Err (Exn TestcaseNotFound ("Invalid tests path: " +:+ p)), st)) as Hmake.
  { intros p flag Hd Hf. unfold __make, make_with.
    rewrite bind_run. cbn [fs_read]. rewrite Hd, bind_run. cbn [fs_read].
    by rewrite Hf. }
  split; [by apply Hmake|]. intros Hd Hf.
  unfold main_make, main_make_collect. rewrite !bind_run. cbn [for_each].
  rewrite bind_run. fold (tests_path_absolute E tests_path).
  by rewrite (Hmake _ false Hd Hf).
Qed.

End LoopTheorems.


Lemma unreadable_file_skipped_witness :
  let st := Sim.init Sim.demo Sim.project in
  let make := make_file Sim.demo (make_testcase Sim.demo 1) false in
  for_each make ["/w/cases/gone.yml"; "/w/cases/ping.yml"] st
  = for_each make ["/w/cases/ping.yml"] (logged (EvLog "WARNING" "/w/cases/gone.yml") st).
Proof.
  intros st make.
  apply (unreadable_file_skipped (E := Sim.demo) (make_testcase Sim.demo 1) false
           "/w/cases/gone.yml" ["/w/cases/ping.yml"] st
           (Exn FileNotFound "/w/cases/gone.yml")).
  - reflexivity.
  - reflexivity.
  - left. reflexivity.
Defined.

Lemma other_error_ends_loop_witness :
  let st := Sim.init Sim.demo Sim.nameless_folder in
  for_each (make_file Sim.demo (make_testcase Sim.demo 1) false)
    ["/w/cases/nameless.yml"; "/w/cases/ping.yml"] st
  = (Err (Exn KeyError "'name'"),
     snd (make_testcase Sim.demo 1 Sim.nameless None false st)).
Proof.
  intros st.
  apply (other_error_ends_loop (E := Sim.demo) 1 false "/w/cases/nameless.yml"
           ["/w/cases/ping.yml"] (VDict Sim.nameless) Sim.nameless st
           (snd (make_testcase Sim.demo 1 Sim.nameless None false st))
           (Exn KeyError "'name'")).
  - reflexivity.
  - reflexivity.
  - reflexivity.
  - reflexivity.
  - reflexivity.
  - discriminate.
Defined.

Lemma missing_path_not_found_witness :
  let st := Sim.init Sim.demo Sim.project in
  main_make Sim.demo 1 ["nowhere"; "cases"] st
  = (Err (Exn TestcaseNotFound "Invalid tests path: /w/nowhere"), st).
Proof.
  intros st.
  apply (proj2 (missing_path_not_found (E := Sim.demo) 1 "nowhere" ["cases"] false st));
    reflexivity.
Defined.

(** ** Files written and files found *)

Section FileTheorems.
Context {E : Env}.

#[local] Arguments String.append !_ _ / : simpl nomatch.
#[local] Arguments Ascii.eqb : simpl never.

(** X14.  A pytest file named by [convert_testcase_path] is known again
    when [__make] comes across it: the loop adds its path to
    [pytest_files_set] and neither loads nor makes anything. *)
Theorem generated_file_recorded (st st' s : State E) (path python_path cls : string)
    (make_tc : dict -> option string -> bool -> M E string) (ref_flag : bool) :
  isdir E (fs st) path = false ->
  convert_testcase_path E path st = (Ok (python_path, cls), st') ->
  make_file E make_tc ref_flag python_path s = pytest_add python_path s.
Proof.
  intros Hdir. rewrite convert_testcase_path_run, Hdir. intros [= H <-].
  apply convert_names in H as (name & -> & _ & Hsep & _).
  assert (Str.contains Str.sep (name +:+ "_test.py") = false) as Hs.
  { rewrite contains_append, Hsep. reflexivity. }
  unfold make_file. rewrite join_file by done.
  assert (forall x, Str.endswith "_test.py" (Str.lower (x +:+ name +:+ "_test.py")) = true)
    as Hend.
  { intros x. rewrite <-append_assoc, lower_append.
    change (Str.lower "_test.py") with "_test.py". apply endswith_append_self. }
  destruct (_ || _).
  - by rewrite Hend.
  - change (String "/" (name +:+ "_test.py")) with ("/" +:+ name +:+ "_test.py").
    rewrite <-append_assoc. by rewrite Hend.
Qed.

(** X15.  The last phase of [make_testcase] writes the pytest file, then
    the marker [__init__.py] of its directory if and only if no such
    file exists, then logs the path: an existing marker is never
    written over. *)
Theorem pytest_file_written (path content : string) (ref_flag : bool)
    (st st' : State E) (p : string) :
  make_testcase_write E path content ref_flag st = (Ok p, st') ->
  exists fs1 : FS E,
    write_file E path content (fs st) = Ok fs1
    /\ trace st' =
         (trace st
          ++ EvWrite path content
             :: (if isfile E fs1 (Path.join (Path.dirname path) "__init__.py")
                 then []
                 else [EvWrite (Path.join (Path.dirname path) "__init__.py")
                         ("# NOTICE: Generated By HttpRunner. DO NOT EDIT!" +:+ nl)])
          ++ [EvLog "INFO" ("generated testcase: " +:+ path)])%list.
Proof.
  unfold make_testcase_write. intros H.
  apply bind_ok_inv in H as ([] & s1 & H1 & H).
  unfold open_write, fs_update in H1.
  destruct (write_file E path content (fs st)) as [fs1|e] eqn:Hw; [|done].
  injection H1 as <-. exists fs1. split; [done|].
  apply bind_ok_inv in H as ([] & s2 & H2 & H).
  apply bind_ok_inv in H as ([] & s3 & H3 & H). injection H3 as <-.
  apply bind_ok_inv in H as ([] & s4 & H4 & H). injection H as <- <-.
  assert (trace s4 = (trace s2 ++ [EvLog "INFO" ("generated testcase: " +:+ path)])%list)
    as ->.
  { destruct ref_flag; by injection H4 as <-. }
  unfold __ensure_testcase_module in H2. rewrite bind_run in H2.
  cbn [fs_read fs] in H2.
  destruct (isfile E fs1 _).
  - injection H2 as <-. cbn [trace]. by rewrite <-app_assoc.
  - unfold open_write, fs_update in H2. cbn [fs] in H2.
    destruct (write_file E _ _ fs1); [|done].
    injection H2 as <-. cbn [trace]. by rewrite <-!app_assoc.
Qed.

End FileTheorems.

Lemma generated_file_recorded_witness :
  let st := Sim.init Sim.demo Sim.project in
  make_file Sim.demo (make_testcase Sim.demo 1) false "/w/cases/ping_test.py" st
  = pytest_add "/w/cases/ping_test.py" st.
Proof.
  intros st.
  exact (generated_file_recorded (E := Sim.demo) st st st "/w/cases/ping.yml"
           "/w/cases/ping_test.py" "Ping" (make_testcase Sim.demo 1) false
           eq_refl eq_refl).
Defined.

Lemma pytest_file_written_witness :
  let st := Sim.init Sim.demo Sim.project in
  let st' := snd (make_testcase_write Sim.demo "/w/cases/ping_test.py" "pass" false st) in
  exists fs1 : Sim.files,
    Sim.sim_write "/w/cases/ping_test.py" "pass" Sim.project = Ok fs1
    /\ trace st' =
         ([EvWrite "/w/cases/ping_test.py" "pass"]
          ++ (if Sim.sim_isfile fs1 "/w/cases/__init__.py" then []
              else [EvWrite "/w/cases/__init__.py"
                      ("# NOTICE: Generated By HttpRunner. DO NOT EDIT!" +:+ nl)])
          ++ [EvLog "INFO" "generated testcase: /w/cases/ping_test.py"])%list.
Proof.
  intros st st'.
  apply (pytest_file_written (E := Sim.demo) "/w/cases/ping_test.py" "pass" false st st'
           "/w/cases/ping_test.py").
  reflexivity.
Defined.

(** ** The paths given to the driver *)

Section DriverExtras.
Context {E : Env}.

Lemma for_each_map {A B : Type} (g : A -> B) (body : B -> M E unit) (l : list A) :
  for_each body (List.map g l) = for_each (fun x => body (g x)) l.
Proof. induction l as [|x l IH]; simpl; [done | by rewrite IH]. Qed.

Lemma for_each_ext {A : Type} (body body' : A -> M E unit) (l : list A) :
  (forall x, body x = body' x) -> for_each body l = for_each body' l.
Proof. intros H. induction l as [|x l IH]; simpl; [done | by rewrite H, IH]. Qed.

Lemma tests_path_absolute_idem (tests_path : string) :
  Path.isabs (getcwd E) = true ->
  tests_path_absolute E (tests_path_absolute E tests_path)
  = tests_path_absolute E tests_path.
Proof.
  intros Habs. unfold tests_path_absolute.
  destruct (Path.isabs tests_path) eqn:Hp; simpl.
  - by rewrite Hp.
  - by rewrite isabs_join.
Qed.

(** X16.  When the working directory is absolute, [main_make] treats a
    relative path as the path joined to the working directory: giving
    it the paths made absolute beforehand changes nothing. *)
Theorem main_make_absolute_paths (depth : nat) (tests_paths : list string)
    (st : State E) :
  Path.isabs (getcwd E) = true ->
  main_make E depth (List.map (tests_path_absolute E) tests_paths) st
  = main_make E depth tests_paths st.
Proof.
  intros Habs. destruct tests_paths as [|p l]; [done|].
  cbn [List.map]. unfold main_make, main_make_collect.
  change (tests_path_absolute E p :: List.map (tests_path_absolute E) l)
    with (List.map (tests_path_absolute E) (p :: l)).
  rewrite for_each_map.
  erewrite for_each_ext; [reflexivity|].
  intros x. cbv beta zeta. fold (tests_path_absolute E x).
  fold (tests_path_absolute E (tests_path_absolute E x)).
  by rewrite tests_path_absolute_idem.
Qed.

End DriverExtras.

Lemma main_make_absolute_paths_witness :
  main_make Sim.demo 1 ["/w/cases"] (Sim.init Sim.demo Sim.folder)
  = main_make Sim.demo 1 ["cases"] (Sim.init Sim.demo Sim.folder).
Proof.
  exact (main_make_absolute_paths (E := Sim.demo) 1 ["cases"]
           (Sim.init Sim.demo Sim.folder) eq_refl).
Defined.

(** ** The fluent chains *)

Section ChainTheorems.

#[local] Arguments String.append !_ _ / : simpl nomatch.

Lemma chain_if_present_appends (key : string) (d : dict) (f : value -> string)
    (chain : string) :
  exists rest, chain_if_present key d f chain = chain +:+ rest.
Proof.
  unfold chain_if_present. destruct (Py.lookup key d) as [v|].
  - by exists (f v).
  - exists "". by rewrite append_empty_r.
Qed.

Lemma chain_if_present_keeps_prefix (base key : string) (d : dict)
    (f : value -> string) (chain : string) :
  (exists rest, chain = base +:+ rest) ->
  exists rest, chain_if_present key d f chain = base +:+ rest.
Proof.
  intros [r1 ->]. destruct (chain_if_present_appends key d f (base +:+ r1)) as [r2 ->].
  exists (r1 +:+ r2). by rewrite append_assoc.
Qed.

Lemma prefix_refl (base : string) : exists rest, base = base +:+ rest.
Proof. exists "". by rewrite append_empty_r. Qed.

(** X17.  [make_request_chain_style] succeeds exactly when the request
    has a method that is text and a url.  The chain then starts with
    the method in lower case, called on the url between double quotes;
    the optional fields only add to it. *)
Theorem request_chain_method (request : dict) :
  (forall chain : string,
      make_request_chain_style request = Ok chain ->
      exists (method : string) (url : value) (rest : string),
        Py.lookup "method" request = Some (VStr method)
        /\ Py.lookup "url" request = Some url
        /\ chain = ("." +:+ Str.lower method +:+ "(" +:+ dq +:+ Py.str url +:+ dq +:+ ")")
                   +:+ rest)
  /\ (forall (method : string) (url : value),
      Py.lookup "method" request = Some (VStr method) ->
      Py.lookup "url" request = Some url ->
      exists chain, make_request_chain_style request = Ok chain).
Proof.
  unfold make_request_chain_style, Dyn.getitem. split.
  - intros chain H.
    destruct (Py.lookup "method" request) as [[| | |m| |]|]; try discriminate H.
    rewrite !result_bind_ok in H.
    destruct (Py.lookup "url" request) as [url|]; [|discriminate H].
    rewrite result_bind_ok in H. injection H as <-.
    exists m, url.
    enough (exists rest,
               chain_if_present "upload" request
                 (fun v => ".upload(" +:+ "**" +:+ Py.str v +:+ ")")
                 (chain_if_present "allow_redirects" request
                    (fun v => ".set_allow_redirects(" +:+ Py.str v +:+ ")")
                 (chain_if_present "verify" request
                    (fun v => ".set_verify(" +:+ Py.str v +:+ ")")
                 (chain_if_present "timeout" request
                    (fun v => ".set_timeout(" +:+ Py.str v +:+ ")")
                 (chain_if_present "json" request
                    (fun v => ".with_json(" +:+ Py.str v +:+ ")")
                 (chain_if_present "data" request
                    (fun data =>
                       let data := if Py.is_text data then dq +:+ Py.str data +:+ dq
                                   else Py.str data in
                       ".with_data(" +:+ data +:+ ")")
                 (chain_if_present "cookies" request
                    (fun v => ".with_cookies(" +:+ "**" +:+ Py.str v +:+ ")")
                 (chain_if_present "headers" request
                    (fun v => ".with_headers(" +:+ "**" +:+ Py.str v +:+ ")")
                 (chain_if_present "params" request
                    (fun v => ".with_params(" +:+ "**" +:+ Py.str v +:+ ")")
                    ("." +:+ Str.lower m +:+ "(" +:+ dq +:+ Py.str url +:+ dq +:+ ")")))))))))
               = ("." +:+ Str.lower m +:+ "(" +:+ dq +:+ Py.str url +:+ dq +:+ ")")
                 +:+ rest) as [rest Hrest].
    { exists rest. split_and!; [done | done | exact Hrest]. }
    do 9 apply chain_if_present_keeps_prefix. apply prefix_refl.
  - intros method url -> ->. rewrite !result_bind_ok. by eexists.
Qed.

Lemma request_chain_method_witness :
  exists chain,
    make_request_chain_style
      [("method", VStr "POST"); ("url", VStr "/login"); ("json", VDict [("u", VInt 1)])]
    = Ok chain.
Proof.
  exact (proj2 (request_chain_method
                 [("method", VStr "POST"); ("url", VStr "/login");
                  ("json", VDict [("u", VInt 1)])])
           "POST" (VStr "/login") eq_refl eq_refl).
Defined.

End ChainTheorems.

Section ConfigTheorems.
Context {E : Env}.

#[local] Arguments String.append !_ _ / : simpl nomatch.

Lemma has_set_other (k k' : string) (v : value) (d : dict) :
  k' <> k -> Py.has k (Py.set k' v d) = Py.has k d.
Proof.
  intros Hne. unfold Py.has. rewrite lookup_set.
  by destruct (String.eqb_spec k' k).
Qed.

Lemma has_set_same (k : string) (v : value) (d : dict) : Py.has k (Py.set k v d) = true.
Proof. unfold Py.has. by rewrite lookup_set, String.eqb_refl. Qed.

Lemma has_setdefault (k k' : string) (v : value) (d : dict) :
  Py.has k (Py.setdefault k' v d) = (String.eqb k' k || Py.has k d).
Proof.
  unfold Py.setdefault. destruct (Py.has k' d) eqn:Hk'.
  - destruct (String.eqb_spec k' k) as [<-|]; [by rewrite Hk' | done].
  - unfold Py.has. rewrite lookup_set. by destruct (String.eqb k' k).
Qed.

(** X18.  The config that lines 277-287 prepare holds the path of the
    pytest file relative to the working directory and always has
    variables, so that [make_config_chain_style] raises on it only for
    a missing name, with [KeyError]. *)
Theorem prepared_config_serializes (testcase : dict)
    (testcase_path python_path : string) (st st' : State E) (config : dict) :
  make_testcase_config E testcase testcase_path python_path st = (Ok config, st') ->
  Py.lookup "path" config = Some (VStr (__ensure_cwd_relative E python_path))
  /\ Py.has "variables" config = true
  /\ (Py.has "name" config = true -> exists chain, make_config_chain_style config = Ok chain)
  /\ (Py.has "name" config = false ->
      raises KeyError (make_config_chain_style config) = true).
Proof.
  unfold make_testcase_config. intros H.
  apply bind_ok_inv in H as (config_v & s1 & _ & H).
  apply bind_ok_inv in H as (config0 & s2 & _ & H).
  set (config1 := Py.setdefault "variables" (VDict [])
                    (Py.set "path" (VStr (__ensure_cwd_relative E python_path)) config0))
    in H.
  assert (Py.lookup "path" config1
          = Some (VStr (__ensure_cwd_relative E python_path))) as Hpath1.
  { subst config1. unfold Py.setdefault. destruct (Py.has _ _).
    - by rewrite lookup_set, String.eqb_refl.
    - by rewrite !lookup_set. }
  assert (Py.has "variables" config1 = true) as Hvars1.
  { subst config1. by rewrite has_setdefault. }
  assert (Py.lookup "path" config
          = Some (VStr (__ensure_cwd_relative E python_path))
          /\ Py.has "variables" config = true) as [Hpath Hvars].
  { destruct (Py.is_text _).
    - apply bind_ok_inv in H as (pm & s3 & _ & H).
      apply bind_ok_inv in H as (variables & s4 & _ & H). injection H as <- <-.
      split; [by rewrite lookup_set | apply has_set_same].
    - by injection H as <- <-. }
  split_and!; [done | done | |].
  - unfold Py.has. intros Hname. unfold make_config_chain_style, Dyn.getitem.
    unfold Py.has in Hvars.
    destruct (Py.lookup "name" config); [|done].
    destruct (Py.lookup "variables" config); [|done].
    rewrite !result_bind_ok. by eexists.
  - unfold Py.has. intros Hname. unfold make_config_chain_style, Dyn.getitem.
    by destruct (Py.lookup "name" config).
Qed.

End ConfigTheorems.

Lemma prepared_config_serializes_witness :
  let config :=
    [("name", VStr "ping"); ("path", VStr "cases/ping_test.py"); ("variables", VDict [])] in
  Py.lookup "path" config
  = Some (VStr (__ensure_cwd_relative Sim.demo "/w/cases/ping_test.py"))
  /\ Py.has "variables" config = true
  /\ (Py.has "name" config = true -> exists chain, make_config_chain_style config = Ok chain)
  /\ (Py.has "name" config = false ->
      raises KeyError (make_config_chain_style config) = true).
Proof.
  exact (prepared_config_serializes (E := Sim.demo) Sim.ping "/w/cases/ping.yml"
           "/w/cases/ping_test.py" (Sim.init Sim.demo Sim.project)
           (Sim.init Sim.demo Sim.project) _ eq_refl).
Defined.

Section StepTheorems.
Context {E : Env}.

#[local] Arguments String.append !_ _ / : simpl nomatch.

(** X19.  A teststep that [make_teststep_chain_style] serializes has a
    name, and its chain opens with [Step(RunRequest(] and the name when
    the step has a request, and with [Step(RunTestCase(] and the name
    otherwise; a step with both a request and a testcase is a request
    step. *)
Theorem teststep_chain_kind (teststep : dict) (step : string) :
  make_teststep_chain_style E teststep = Ok step ->
  exists (name : value) (rest : string),
    Py.lookup "name" teststep = Some name
    /\ (Py.truthy (Py.get "request" teststep) = false ->
        Py.truthy (Py.get "testcase" teststep) = true)
    /\ step = ("Step(" +:+
               (if Py.truthy (Py.get "request" teststep)
                then "RunRequest(" else "RunTestCase(")
               +:+ dq +:+ Py.str name +:+ dq +:+ ")") +:+ rest.
Proof.
  unfold make_teststep_chain_style. intros H.
  apply result_bind_inv in H as (s1 & H1 & H).
  apply result_bind_inv in H as (s2 & H2 & H).
  apply result_bind_inv in H as (s3 & H3 & H).
  apply result_bind_inv in H as (s4 & H4 & H). injection H as <-.
  set (kind := if Py.truthy (Py.get "request" teststep)
               then "RunRequest(" else "RunTestCase(").
  assert (exists name : value,
             Py.lookup "name" teststep = Some name
             /\ (Py.truthy (Py.get "request" teststep) = false ->
                 Py.truthy (Py.get "testcase" teststep) = true)
             /\ s1 = kind +:+ dq +:+ Py.str name +:+ dq +:+ ")")
    as (name & Hname & Hkind & ->).
  { unfold Dyn.getitem in H1. subst kind.
    destruct (Py.truthy (Py.get "request" teststep));
      [|destruct (Py.truthy (Py.get "testcase" teststep)); [|done]];
      (destruct (Py.lookup "name" teststep) as [name|]; [|done]);
      rewrite result_bind_ok in H1; injection H1 as <-; by exists name. }
  exists name.
  set (base := kind +:+ dq +:+ Py.str name +:+ dq +:+ ")") in *.
  assert (exists r, s2 = base +:+ r) as [r2 ->].
  { match type of H2 with
    | context [chain_if_present "variables" teststep ?f ?c] =>
        destruct (chain_if_present_keeps_prefix base "variables" teststep f c
                    (prefix_refl base)) as [r1 Hr1]; rewrite Hr1 in H2
    end.
    destruct (Py.truthy (Py.get "request" teststep)).
    - apply result_bind_inv in H2 as (request & _ & H2).
      apply result_bind_inv in H2 as (chain & _ & H2). injection H2 as <-.
      exists (r1 +:+ chain). by rewrite append_assoc.
    - destruct (Py.truthy (Py.get "testcase" teststep)); injection H2 as <-.
      + eexists. by rewrite append_assoc.
      + by exists r1. }
  assert (exists r, s3 = base +:+ r) as [r3 ->].
  { destruct (Py.lookup "extract" teststep).
    - apply result_bind_inv in H3 as (items & _ & H3). injection H3 as <-.
      eexists. by rewrite append_assoc.
    - injection H3 as <-. by exists r2. }
  assert (exists r, s4 = base +:+ r) as [r4 ->].
  { match type of H4 with
    | context [chain_if_present "export" teststep ?f ?c] =>
        destruct (chain_if_present_keeps_prefix base "export" teststep f c
                    (ex_intro _ r3 eq_refl)) as [r Hr]; rewrite Hr in H4
    end.
    destruct (Py.lookup "validate" teststep).
    - apply result_bind_inv in H4 as (validators & _ & H4).
      apply result_bind_inv in H4 as (chains & _ & H4). injection H4 as <-.
      eexists. by rewrite append_assoc.
    - injection H4 as <-. by exists r. }
  exists (r4 +:+ ")"). split_and!; [done | done |].
  rewrite (append_assoc base r4 ")"). symmetry.
  exact (append_assoc "Step(" base (r4 +:+ ")")).
Qed.

End StepTheorems.

Lemma teststep_chain_kind_witness :
  exists (name : value) (rest : string),
    Py.lookup "name" [("name", VStr "s1"); ("testcase", VStr "Login");
                      ("request", VDict [("method", VStr "GET"); ("url", VStr "/")])]
    = Some name
    /\ (true = false -> true = true)
    /\ "Step(RunRequest(" +:+ dq +:+ "s1" +:+ dq +:+ ").get(" +:+ dq +:+ "/" +:+ dq +:+ "))"
       = ("Step(" +:+ "RunRequest(" +:+ dq +:+ Py.str name +:+ dq +:+ ")") +:+ rest.
Proof.
  exact (teststep_chain_kind (E := Sim.demo)
           [("name", VStr "s1"); ("testcase", VStr "Login");
            ("request", VDict [("method", VStr "GET"); ("url", VStr "/")])]
           ("Step(RunRequest(" +:+ dq +:+ "s1" +:+ dq +:+ ").get(" +:+ dq +:+ "/" +:+ dq +:+ "))")
           eq_refl).
Defined.

(** ** More overrides of a testsuite *)

Section OverrideTheorems.



End OverrideTheorems.


(** ** The bound on the nesting of references *)

Section DepthFacts.
Context {E : Env}.












End DepthFacts.

Section DepthTheorems.
Context {E : Env}.


End DepthTheorems.


(** ** Testsuites in the loop *)

Section SuiteLoopTheorems.
Context {E : Env}.

(** X22.  For a testsuite [__make] catches [TestSuiteFormatError] only.
    Any other exception of [make_testsuite] ends the loop: a testcase
    file of the testsuite that the loader cannot find is not passed
    over with a warning, as a missing file of the folder is, but stops
    the run. *)
Theorem testsuite_error_ends_loop (depth : nat) (ref_flag : bool)
    (test_file : string) (rest : list string) (test_content : value)
    (testsuite : dict) (st st1 : State E) (ex : exn) :
  Str.endswith "_test.py" (Str.lower test_file) = false ->
  load_test_file E test_file (fs st) = Ok test_content ->
  prepare_test_content E test_file test_content = Ok testsuite ->
  Py.has "teststeps" testsuite = false ->
  Py.has "testcases" testsuite = true ->
  make_testsuite E depth testsuite st = (Err ex, st1) ->
  exn_cls ex <> TestSuiteFormatError ->
  for_each (make_file E (make_testcase E depth) ref_flag) (test_file :: rest) st
  = (Err ex, st1).
Proof.
  intros Hname Hload Hprepare Hsteps Hcases Hmake Hcls.
  cbn [for_each]. rewrite bind_run. unfold make_file at 1. rewrite Hname.
  rewrite bind_run. unfold try_except at 1. rewrite bind_run.
  unfold fs_load at 1. rewrite Hload. cbn [mret M_ret ret].
  unfold lift at 1. rewrite bind_run, Hprepare, Hsteps, Hcases.
  unfold try_except. fold (make_testsuite E depth testsuite). rewrite Hmake.
  cbn [existsb]. by destruct (exn_cls ex).
Qed.

End SuiteLoopTheorems.

Lemma testsuite_error_ends_loop_witness :
  let st := Sim.init Sim.demo Sim.suite_folder in
  let testsuite :=
    Py.set "config" (VDict [("name", VStr "suite"); ("path", VStr "/w/cases/all.yml")])
      Sim.suite in
  for_each (make_file Sim.demo (make_testcase Sim.demo 1) false)
    ["/w/cases/all.yml"; "/w/cases/ping.yml"] st
  = (Err (Exn FileNotFound "/w/cases/gone.yml"),
     snd (make_testsuite Sim.demo 1 testsuite st)).
Proof.
  intros st testsuite.
  apply (testsuite_error_ends_loop (E := Sim.demo) 1 false "/w/cases/all.yml"
           ["/w/cases/ping.yml"] (VDict Sim.suite) testsuite st
           (snd (make_testsuite Sim.demo 1 testsuite st))
           (Exn FileNotFound "/w/cases/gone.yml")).
  - reflexivity.
  - reflexivity.
  - reflexivity.
  - reflexivity.
  - reflexivity.
  - reflexivity.
  - discriminate.
Defined.

(** ** The directory of a testsuite *)

Section DirPathTheorems.
Context {E : Env}.

#[local] Arguments String.append !_ _ / : simpl nomatch.

(** X23.  Given a directory, as [make_testsuite] gives one,
    [make_testcase] puts the pytest file of a source file into that
    directory under the name it would have had beside its source; the
    class name is the same. *)
Theorem pytest_file_in_dir_path (testcase testcase' : dict) (dir : string)
    (st s0 : State E) (testcase_path python_path cls : string) :
  make_testcase_paths E testcase (Some dir) st
    = (Ok (testcase', testcase_path, python_path, cls), s0) ->
  dir <> "" ->
  isdir E (fs st) testcase_path = false ->
  exists name : string,
    convert_testcase_path E testcase_path st
    = (Ok (Path.join (Path.dirname testcase_path) (name +:+ "_test.py"), cls), st)
    /\ python_path = Path.join dir (name +:+ "_test.py")
    /\ Path.basename python_path = name +:+ "_test.py".
Proof.
  unfold make_testcase_paths. intros H Hdir Hisdir.
  apply bind_ok_inv in H as (tc & s1 & H1 & H). apply leaves_lift in H1 as ->.
  apply bind_ok_inv in H as ([] & s1 & H1 & H). apply leaves_lift in H1 as ->.
  apply bind_ok_inv in H as (config & s1 & H1 & H). apply leaves_lift in H1 as ->.
  apply bind_ok_inv in H as (path & s1 & H1 & H). apply leaves_lift in H1 as ->.
  apply bind_ok_inv in H as (tp & s1 & H1 & H).
  apply leaves_ensure_absolute_value in H1 as ->.
  apply bind_ok_inv in H as ([] & s1 & H1 & H). injection H1 as <-.
  apply bind_ok_inv in H as ([py c] & s2 & H2 & H).
  destruct dir as [|a dir]; [done|].
  injection H as <- <- <- <- <-.
  rewrite convert_testcase_path_run in H2. cbn [fs] in H2. rewrite Hisdir in H2.
  apply (f_equal fst) in H2. cbn [fst] in H2.
  rewrite convert_testcase_path_run, Hisdir, H2.
  apply convert_names in H2 as (name & -> & -> & Hsep & _).
  assert (Str.contains Str.sep (name +:+ "_test.py") = false) as Hs.
  { rewrite contains_append, Hsep. reflexivity. }
  exists name. rewrite !basename_join by done. done.
Qed.

End DirPathTheorems.

Lemma pytest_file_in_dir_path_witness :
  let st := Sim.init Sim.demo Sim.project in
  exists name : string,
    convert_testcase_path Sim.demo "/w/cases/ping.yml" st
    = (Ok (Path.join (Path.dirname "/w/cases/ping.yml") (name +:+ "_test.py"), "Ping"), st)
    /\ "/w/suite_yml/ping_test.py" = Path.join "/w/suite_yml" (name +:+ "_test.py")
    /\ Path.basename "/w/suite_yml/ping_test.py" = name +:+ "_test.py".
Proof.
  intros st.
  apply (pytest_file_in_dir_path (E := Sim.demo) Sim.ping Sim.ping "/w/suite_yml" st
           (snd (make_testcase_paths Sim.demo Sim.ping (Some "/w/suite_yml") st))
           "/w/cases/ping.yml" "/w/suite_yml/ping_test.py" "Ping").
  - reflexivity.
  - discriminate.
  - reflexivity.
Defined.
